(** * The kind cluster provider of the e2e-framework ([support/kind/kind.go])

    A shallow embedding of the [Cluster] handle and of its lifecycle
    operations, together with the properties the specification states
    about them.

    The handle talks to four collaborators that live outside the file:
    the process runner ([utils.RunCommand], [utils.FetchCommandOutput]),
    the tool installer ([utils.FindOrInstallGoBasedProvider]), the client
    configuration factory ([conf.New]) and the resource client with its
    polling helper ([resources.New], [wait.For]).  They are taken as the
    fields of an environment record; every operation threads a [World]
    that holds the state of the outside, the temporary files, the
    package-level variable [kindVersion] and a log of the calls made. *)

From Stdlib Require Import String Ascii List Bool Arith Lia NArith.
From stdpp Require Import base option gmap strings.
Import ListNotations.

Local Open Scope string_scope.
Local Open Scope list_scope.

(** ** Strings: the fragments of Go's [strings] package the file uses *)

Module Strings.

(** The line feed, the separator of [strings.Split(clusters, "\n")]. *)
Definition LF : ascii := Ascii.ascii_of_nat 10.
Definition newline : string := String LF EmptyString.

(** [strings.Split(s, sep)] for a separator of one byte: the pieces of
    [s] between the occurrences of [sep], in order; one piece more than
    there are separators, so the empty string gives one empty piece. *)
Fixpoint Split (s : string) (sep : ascii) : list string :=
  match s with
  | EmptyString => [EmptyString]
  | String c s' =>
      if Ascii.eqb c sep then EmptyString :: Split s' sep
      else match Split s' sep with
           | [] => [String c EmptyString]
           | piece :: pieces => String c piece :: pieces
           end
  end.

(** [strings.Join(elems, sep)]. *)
Fixpoint Join (elems : list string) (sep : string) : string :=
  match elems with
  | [] => EmptyString
  | [e] => e
  | e :: rest => e +:+ sep +:+ Join rest sep
  end.

(** [strings.HasPrefix(s, p)]. *)
Fixpoint HasPrefix (s p : string) : bool :=
  match p, s with
  | EmptyString, _ => true
  | String a p', String b s' => Ascii.eqb a b && HasPrefix s' p'
  | String _ _, EmptyString => false
  end.

(** [strings.ContainsRune(s, c)] for a byte. *)
Fixpoint ContainsByte (s : string) (c : ascii) : bool :=
  match s with
  | EmptyString => false
  | String a s' => Ascii.eqb a c || ContainsByte s' c
  end.

(** Cutting [s] at the last occurrence of [c]: what is before it and
    what is after it ([strings.LastIndex] followed by two slices). *)
Fixpoint CutLast (s : string) (c : ascii) : option (string * string) :=
  match s with
  | EmptyString => None
  | String a s' =>
      match CutLast s' c with
      | Some (before, after) => Some (String a before, after)
      | None => if Ascii.eqb a c then Some (EmptyString, s') else None
      end
  end.

(** The last byte of a string, if it has one. *)
Fixpoint LastByte (s : string) : option ascii :=
  match s with
  | EmptyString => None
  | String a EmptyString => Some a
  | String _ s' => LastByte s'
  end.

End Strings.
Export Strings.

(** ** Errors

    The file builds its errors with [fmt.Errorf]; each format string is a
    constructor that keeps the arguments of the format.  An error that
    comes from a collaborator or from the [os] package is opaque. *)

#[warnings="-register-all"]
Inductive error : Type :=
| ForeignError (msg : string)
| ErrGetKubeconfig (cause : error)
    (* "kind get kubeconfig: %w" *)
| ErrKubeconfigStdout (cause : error)
    (* "kind kubeconfig stdout bytes: %w" *)
| ErrKubeconfigFile (cause : error)
    (* "kind kubeconfig file: %w" *)
| ErrKubecfgBytesCopied (n : nat) (cause : option error)
    (* "kind kubecfg file: bytes copied: %d: %w]" *)
| ErrCreateFailed (cause : error) (result output : string)
    (* "failed to create kind cluster: %s : %s: %s" *)
| ErrStillNotInList (name clusters : string)
    (* "kind Cluster.Create: cluster %v still not in 'cluster list' after creation: %v" *)
| ErrDeleteFailed (name : string) (cause : error) (result : string)
    (* "kind: delete cluster %v failed: %s: %s" *)
| ErrRemoveKubeconfig (file : string) (cause : error)
    (* "kind: remove kubefconfig %v failed: %w" *)
| ErrWaitTimeout.
    (* the polling helper gave up *)

(** What [utils.RunCommand] hands back: the process error ([p.Err()]),
    the bytes that can be read from [p.Out()] with the error the reader
    ends on, and [p.Result()]. *)
Record Proc : Type := {
  Err : option error;
  Out : string;
  OutErr : option error;
  Result : string
}.

(** The calls made to the collaborators, in the order they are made.  A
    pod listing is logged with what the listing observed. *)
Inductive Event : Type :=
| EvFindOrInstall (path name pkg version : string)
| EvRunCommand (command : string)
| EvFetchCommandOutput (command : string)
| EvListPods (selector : string) (observed : nat + error).

(** [metav1.LabelSelectorRequirement] and [metav1.LabelSelector], as far
    as the file fills them in. *)
Inductive LabelSelectorOperator : Type :=
| LabelSelectorOpIn
| LabelSelectorOpNotIn
| LabelSelectorOpExists
| LabelSelectorOpDoesNotExist.

Record LabelSelectorRequirement : Type := {
  Key : string;
  Operator : LabelSelectorOperator;
  Values : list string
}.

Record LabelSelector : Type := {
  MatchExpressions : list LabelSelectorRequirement
}.

(** [context.Context], as far as a callee can look at it: [ctx.Err()] is
    set once the context is cancelled or past its deadline. *)
Record Context : Type := { ctxErr : option error }.

Definition Background : Context := {| ctxErr := None |}.

(** ** The outside world *)

Section Model.

(** [Ext] is the state of everything outside the process (the
    provisioning tool, the cluster it runs, the disk's permissions);
    [Config] stands for [rest.Config]. *)
Context {Ext Config : Type}.

(** [resources.Resources]: the resource client built from a
    configuration. *)
Record Resources : Type := { restConfig : Config }.

(** The collaborators.  None of them is in the file; each is taken with
    the signature the file uses it at. *)
Record Env : Type := {
  (* utils.RunCommand(command) *)
  RunCommand : string -> Ext -> Proc * Ext;
  (* utils.FetchCommandOutput(command) *)
  FetchCommandOutput : string -> Ext -> string * Ext;
  (* utils.FindOrInstallGoBasedProvider(pPath, provider, module, version) *)
  FindOrInstallGoBasedProvider :
    string -> string -> string -> string -> Ext -> (string * option error) * Ext;
  (* conf.New(fileName), reading the files on disk *)
  conf_New : string -> gmap string string -> option Config * option error;
  (* resources.New(cfg) *)
  resources_New : option Config -> Resources + error;
  (* r.List(ctx, &v1.PodList{}, resources.WithLabelSelector(selector)):
     the number of items listed, or the error of the call *)
  ListPods : Resources -> string -> Ext -> (nat + error) * Ext;
  (* metav1.LabelSelectorAsSelector(ls) followed by selector.String() *)
  LabelSelectorAsSelector : LabelSelector -> string + error;
  (* the number of polls wait.For makes before it gives up *)
  maxPolls : nat;
  (* os.TempDir() *)
  TempDir : string;
  (* the random suffixes os.CreateTemp draws, one per attempt *)
  nextRandom : nat -> string;
  (* failures of the disk other than "file exists" *)
  openFault : string -> Ext -> option error;
  copyFault : string -> string -> Ext -> option (nat * error);
  removeFault : string -> Ext -> option error
}.

Record World : Type := {
  ext : Ext;
  (* the files the handle itself reads and writes (its credential files),
     path to content; what the tool and the installer do to the disk is
     part of [ext] *)
  files : gmap string string;
  (* how many random suffixes have been drawn *)
  drawn : nat;
  (* var kindVersion = "v0.17.0" *)
  kindVersion : string;
  trace : list Event
}.

Definition defaultKindVersion : string := "v0.17.0".

Definition initWorld (x : Ext) : World :=
  {| ext := x; files := ∅; drawn := 0;
     kindVersion := defaultKindVersion; trace := [] |}.

Definition set_ext (x : Ext) (w : World) : World :=
  {| ext := x; files := files w; drawn := drawn w;
     kindVersion := kindVersion w; trace := trace w |}.

Definition set_files (f : gmap string string) (w : World) : World :=
  {| ext := ext w; files := f; drawn := drawn w;
     kindVersion := kindVersion w; trace := trace w |}.

Definition draw (w : World) : World :=
  {| ext := ext w; files := files w; drawn := S (drawn w);
     kindVersion := kindVersion w; trace := trace w |}.

Definition set_kindVersion (v : string) (w : World) : World :=
  {| ext := ext w; files := files w; drawn := drawn w;
     kindVersion := v; trace := trace w |}.

Definition log (e : Event) (w : World) : World :=
  {| ext := ext w; files := files w; drawn := drawn w;
     kindVersion := kindVersion w; trace := trace w ++ [e] |}.

Variable E : Env.

Definition isSome {A : Type} (o : option A) : bool :=
  match o with Some _ => true | None => false end.

(** *** The collaborators, called from a world *)

Definition utils_RunCommand (command : string) (w : World) : Proc * World :=
  let '(p, x) := RunCommand E command (ext w) in
  (p, log (EvRunCommand command) (set_ext x w)).

Definition utils_FetchCommandOutput (command : string) (w : World)
  : string * World :=
  let '(out, x) := FetchCommandOutput E command (ext w) in
  (out, log (EvFetchCommandOutput command) (set_ext x w)).

Definition utils_FindOrInstallGoBasedProvider
    (pPath provider module version : string) (w : World)
  : (string * option error) * World :=
  let '(r, x) := FindOrInstallGoBasedProvider E pPath provider module version (ext w) in
  (r, log (EvFindOrInstall pPath provider module version) (set_ext x w)).

(** *** The [os] and [io] calls of the file *)

Definition errPatternHasSeparator : error :=
  ForeignError "pattern contains path separator".
Definition errExist : error := ForeignError "file exists".

(** [prefixAndSuffix(pattern)]: a pattern with a path separator is
    refused; otherwise the pattern is cut at its last star. *)
Definition prefixAndSuffix (pattern : string) : (string * string) + error :=
  if ContainsByte pattern "/"%char then inr errPatternHasSeparator
  else match CutLast pattern "*"%char with
       | Some (prefix, suffix) => inl (prefix, suffix)
       | None => inl (pattern, EmptyString)
       end.

(** [joinPath(dir, name)]. *)
Definition joinPath (dir name : string) : string :=
  match LastByte dir with
  | Some c => if Ascii.eqb c "/"%char then dir +:+ name else dir +:+ "/" +:+ name
  | None => dir +:+ "/" +:+ name
  end.

(** The loop of [os.CreateTemp]: draw a name, open it exclusively, and
    draw again while the name is taken; [retries] is the number of
    further attempts allowed. *)
Fixpoint CreateTemp_loop (retries : nat) (prefix suffix : string) (w : World)
  : (string + error) * World :=
  let name := prefix +:+ nextRandom E (drawn w) +:+ suffix in
  let w1 := draw w in
  match files w !! name with
  | Some _ =>
      match retries with
      | 0 => (inr errExist, w1)
      | S r => CreateTemp_loop r prefix suffix w1
      end
  | None =>
      match openFault E name (ext w) with
      | Some e => (inr e, w1)
      | None => (inl name, set_files (<[name := EmptyString]> (files w1)) w1)
      end
  end.

(** [os.CreateTemp(dir, pattern)]: at most 10000 attempts. *)
Definition os_CreateTemp (dir pattern : string) (w : World)
  : (string + error) * World :=
  let dir := if String.eqb dir EmptyString then TempDir E else dir in
  match prefixAndSuffix pattern with
  | inr e => (inr e, w)
  | inl (prefix, suffix) =>
      CreateTemp_loop (N.to_nat 9999) (joinPath dir prefix) suffix w
  end.

(** [io.Copy(file, &stdout)]: the bytes of [data] go to the file; a
    fault of the disk stops the copy after [n] bytes. *)
Definition io_Copy (file data : string) (w : World)
  : (nat * option error) * World :=
  match copyFault E file data (ext w) with
  | Some (n, e) =>
      let written := String.substring 0 n data in
      ((String.length written, Some e), set_files (<[file := written]> (files w)) w)
  | None =>
      ((String.length data, None), set_files (<[file := data]> (files w)) w)
  end.


(** ** The handle *)

Record Cluster : Type := {
  path : string;
  name : string;
  kubecfgFile : string;
  version : string;
  image : string;
  rc : option Config
}.

Definition set_path (p : string) (k : Cluster) : Cluster :=
  {| path := p; name := name k; kubecfgFile := kubecfgFile k;
     version := version k; image := image k; rc := rc k |}.

Definition set_name (n : string) (k : Cluster) : Cluster :=
  {| path := path k; name := n; kubecfgFile := kubecfgFile k;
     version := version k; image := image k; rc := rc k |}.

Definition set_kubecfgFile (f : string) (k : Cluster) : Cluster :=
  {| path := path k; name := name k; kubecfgFile := f;
     version := version k; image := image k; rc := rc k |}.

Definition set_version (v : string) (k : Cluster) : Cluster :=
  {| path := path k; name := name k; kubecfgFile := kubecfgFile k;
     version := v; image := image k; rc := rc k |}.

Definition set_rc (c : option Config) (k : Cluster) : Cluster :=
  {| path := path k; name := name k; kubecfgFile := kubecfgFile k;
     version := version k; image := image k; rc := c |}.

Definition NewCluster (n : string) : Cluster :=
  {| path := EmptyString; name := n; kubecfgFile := EmptyString;
     version := EmptyString; image := EmptyString; rc := None |}.

Definition SetDefaults (k : Cluster) : Cluster :=
  if String.eqb (path k) EmptyString then set_path "kind" k else k.

Definition WithName (n : string) (k : Cluster) : Cluster := set_name n k.
Definition WithPath (p : string) (k : Cluster) : Cluster := set_path p k.
Definition WithVersion (ver : string) (k : Cluster) : Cluster := set_version ver k.

Definition GetKubeconfig (k : Cluster) : string := kubecfgFile k.
Definition KubernetesRestConfig (k : Cluster) : option Config := rc k.

(** Every method returns its results, the handle as the method leaves
    it (the receiver is a pointer) and the world. *)

Definition findOrInstallKind (k : Cluster) (w : World)
  : option error * Cluster * World :=
  let w0 := if String.eqb (version k) EmptyString then w
            else set_kindVersion (version k) w in
  let '((p, err), w1) :=
    utils_FindOrInstallGoBasedProvider (path k) "kind" "sigs.k8s.io/kind"
                                       (kindVersion w0) w0 in
  let k1 := if String.eqb p EmptyString then k else set_path p k in
  (err, k1, w1).

Definition getKubeconfig (k : Cluster) (w : World)
  : (string * option error) * Cluster * World :=
  let kubecfg := name k +:+ "-kubecfg" in
  let '(p, w1) :=
    utils_RunCommand (path k +:+ " get kubeconfig --name " +:+ name k) w in
  match Err p with
  | Some e => ((EmptyString, Some (ErrGetKubeconfig e)), k, w1)
  | None =>
      match OutErr p with
      | Some e => ((EmptyString, Some (ErrKubeconfigStdout e)), k, w1)
      | None =>
          let stdout := Out p in
          let '(created, w2) :=
            os_CreateTemp EmptyString ("kind-cluser-" +:+ kubecfg) w1 in
          match created with
          | inr e => ((EmptyString, Some (ErrKubeconfigFile e)), k, w2)
          | inl file =>
              let k1 := set_kubecfgFile file k in
              let '((n, err), w3) := io_Copy file stdout w2 in
              if Nat.eqb n 0 || isSome err
              then ((EmptyString, Some (ErrKubecfgBytesCopied n err)), k1, w3)
              else ((file, None), k1, w3)
          end
      end
  end.

(** The [for ... range] of [clusterExists], leaving at the first line
    that is the name. *)
Fixpoint clusterExists_range (lines : list string) (n : string) : bool :=
  match lines with
  | [] => false
  | c :: rest => if String.eqb c n then true else clusterExists_range rest n
  end.

Definition clusterExists (k : Cluster) (n : string) (w : World)
  : (string * bool) * World :=
  let '(clusters, w1) := utils_FetchCommandOutput (path k +:+ " get clusters") w in
  ((clusters, clusterExists_range (Split clusters LF) n), w1).

Definition initKubernetesAccessClients (k : Cluster) (w : World)
  : option error * Cluster :=
  match conf_New E (kubecfgFile k) (files w) with
  | (_, Some e) => (Some e, k)
  | (cfg, None) => (None, set_rc cfg k)
  end.

(** The command line of the create invocation. *)
Definition create_command (k : Cluster) (args : list string) : string :=
  let command := path k +:+ " create cluster --name " +:+ name k in
  match args with
  | [] => command
  | _ :: _ => command +:+ " " +:+ Join args " "
  end.

Definition Create (k : Cluster) (ctx : Context) (args : list string) (w : World)
  : (string * option error) * Cluster * World :=
  let '(err, k1, w1) := findOrInstallKind k w in
  match err with
  | Some e => ((EmptyString, Some e), k1, w1)
  | None =>
      let '((_, ok), w2) := clusterExists k1 (name k1) w1 in
      if ok then getKubeconfig k1 w2
      else
        let command := create_command k1 args in
        let '(p, w3) := utils_RunCommand command w2 in
        match Err p with
        | Some e =>
            ((EmptyString, Some (ErrCreateFailed e (Result p) (Out p))), k1, w3)
        | None =>
            let '((clusters, ok), w4) := clusterExists k1 (name k1) w3 in
            if negb ok
            then ((EmptyString, Some (ErrStillNotInList (name k1) clusters)), k1, w4)
            else
              let '((kConfig, err), k2, w5) := getKubeconfig k1 w4 in
              match err with
              | Some e => ((EmptyString, Some e), k2, w5)
              | None =>
                  let '(err, k3) := initKubernetesAccessClients k2 w5 in
                  ((kConfig, err), k3, w5)
              end
        end
  end.


(** ** The readiness gate *)

(** [klient.Client], as far as the file uses it: [client.RESTConfig()]. *)
Record Client : Type := { RESTConfig : option Config }.

(** Modelled from the spec: [conditions.New(r).ResourceListN(list, n,
    opts)] is not in the file.  The spec gives the collaborator as a
    listing of the resources that match a selector with a helper that
    waits until the count is at least [n]: one evaluation of the
    condition is one pod listing, an error of the listing is the error
    of the condition, and the condition holds when at least [n] pods
    are listed. *)
Definition ResourceListN (r : Resources) (n : nat) (selector : string)
    (w : World) : (bool + error) * World :=
  let '(observed, x) := ListPods E r selector (ext w) in
  let w1 := log (EvListPods selector observed) (set_ext x w) in
  match observed with
  | inr e => (inr e, w1)
  | inl found => (inl (Nat.leb n found), w1)
  end.

(** Modelled from the spec: [wait.For(cond)] is not in the file.  The
    spec gives it as blocking and driven by polling, until the
    condition holds, a poll fails, or the wait times out: the condition
    is evaluated up to [maxPolls] times, the first error or the first
    success ends the wait, and a wait that runs out of polls ends on a
    timeout error. *)
Fixpoint wait_For_loop (polls : nat)
    (cond : World -> (bool + error) * World) (w : World)
  : option error * World :=
  match polls with
  | 0 => (Some ErrWaitTimeout, w)
  | S polls' =>
      let '(r, w1) := cond w in
      match r with
      | inr e => (Some e, w1)
      | inl true => (None, w1)
      | inl false => wait_For_loop polls' cond w1
      end
  end.

Definition wait_For (cond : World -> (bool + error) * World) (w : World)
  : option error * World :=
  wait_For_loop (maxPolls E) cond w.

(** The two requirements [WaitForControlPlane] ranges over. *)
Definition controlPlaneGroup : LabelSelectorRequirement :=
  {| Key := "component"; Operator := LabelSelectorOpIn;
     Values := ["etcd"; "kube-apiserver"; "kube-controller-manager"; "kube-scheduler"] |}.

Definition addOnGroup : LabelSelectorRequirement :=
  {| Key := "k8s-app"; Operator := LabelSelectorOpIn;
     Values := ["kindnet"; "kube-dns"; "kube-proxy"] |}.

(** The body of the [for ... range] of [WaitForControlPlane]. *)
Fixpoint WaitForControlPlane_range (r : Resources)
    (groups : list LabelSelectorRequirement) (w : World)
  : option error * World :=
  match groups with
  | [] => (None, w)
  | sl :: rest =>
      match LabelSelectorAsSelector E {| MatchExpressions := [sl] |} with
      | inr e => (Some e, w)
      | inl selector =>
          let '(err, w1) :=
            wait_For (ResourceListN r (List.length (Values sl)) selector) w in
          match err with
          | Some e => (Some e, w1)
          | None => WaitForControlPlane_range r rest w1
          end
      end
  end.

Definition WaitForControlPlane (k : Cluster) (ctx : Context) (client : Client)
    (w : World) : option error * World :=
  match resources_New E (RESTConfig client) with
  | inr e => (Some e, w)
  | inl r => WaitForControlPlane_range r [controlPlaneGroup; addOnGroup] w
  end.

(** The events a trace has gained. *)
Definition create_invocation (k : Cluster) (e : Event) : bool :=
  match e with
  | EvRunCommand c => HasPrefix c (path k +:+ " create cluster --name " +:+ name k)
  | _ => false
  end.

Definition kubeconfig_invocation (k : Cluster) (e : Event) : bool :=
  match e with
  | EvRunCommand c => HasPrefix c (path k +:+ " get kubeconfig --name " +:+ name k)
  | _ => false
  end.


(** A poll with the selector [sel]. *)
Definition poll_of (sel : string) (e : Event) : Prop :=
  exists observed, e = EvListPods sel observed.

(** A trace that ends on a poll of [sel] which saw [n] pods or more. *)
Definition ends_satisfied (sel : string) (n : nat) (t : list Event) : Prop :=
  exists before found, t = before ++ [EvListPods sel (inl found)] /\ n <= found.

Definition count_events (f : Event -> bool) (t : list Event) : nat :=
  List.length (List.filter f t).

(** The calls made between two worlds. *)
Definition added (w w' : World) : list Event :=
  List.skipn (List.length (trace w)) (trace w').

End Model.

(** Whether a path names something on disk, as [os.Stat] would tell: the
    empty path names nothing. *)
Definition onDisk {Ext : Type} (file : string) (w : World (Ext:=Ext)) : Prop :=
  file <> EmptyString /\ is_Some (files w !! file).

Arguments Env : clear implicits.
Arguments World : clear implicits.
Arguments Cluster : clear implicits.
Arguments Resources : clear implicits.
Arguments Client : clear implicits.

(** ** A provisioning tool to run the operations against

    A small kind: it keeps the names of its clusters, prints them one per
    line, and hands out a fixed kubeconfig.  Two switches make it
    misbehave: a create that registers nothing, and a kubeconfig command
    that prints nothing. *)

Module Sim.

Record State : Type := {
  clusters : list string;
  createRegisters : bool;
  kubeconfigOut : string;
  componentPods : nat;
  addOnPods : nat
}.

Definition set_clusters (cs : list string) (st : State) : State :=
  {| clusters := cs; createRegisters := createRegisters st;
     kubeconfigOut := kubeconfigOut st;
     componentPods := componentPods st; addOnPods := addOnPods st |}.

Fixpoint StripPrefix (s p : string) : option string :=
  match p, s with
  | EmptyString, _ => Some s
  | String a p', String b s' => if Ascii.eqb a b then StripPrefix s' p' else None
  | String _ _, EmptyString => None
  end.

Definition mem (n : string) (cs : list string) : bool :=
  List.existsb (String.eqb n) cs.

Definition ok (out : string) : Proc :=
  {| Err := None; Out := out; OutErr := None; Result := out |}.

Definition failed (msg : string) : Proc :=
  {| Err := Some (ForeignError "exit status 1"); Out := msg; OutErr := None;
     Result := msg |}.

Definition firstWord (s : string) : string :=
  match Split s " "%char with
  | [] => EmptyString
  | word :: _ => word
  end.

Definition run (command : string) (st : State) : Proc * State :=
  match StripPrefix command "kind create cluster --name " with
  | Some rest =>
      let n := firstWord rest in
      if mem n (clusters st) then (failed "node(s) already exist", st)
      else if createRegisters st
           then (ok "Creating cluster", set_clusters (clusters st ++ [n]) st)
           else (ok "Creating cluster", st)
  | None =>
      match StripPrefix command "kind get kubeconfig --name " with
      | Some n =>
          if mem n (clusters st) then (ok (kubeconfigOut st), st)
          else (failed "could not locate any control plane nodes", st)
      | None =>
          match StripPrefix command "kind delete cluster --name " with
          | Some n =>
              (ok "Deleting cluster",
               set_clusters (List.filter (fun c => negb (String.eqb c n)) (clusters st)) st)
          | None => (failed "unknown command", st)
          end
      end
  end.

Definition fetch (command : string) (st : State) : string * State :=
  if String.eqb command "kind get clusters"
  then (Join (clusters st) newline, st)
  else (EmptyString, st).

Definition install (pPath provider module version : string) (st : State)
  : (string * option error) * State :=
  ((pPath, None), st).

Definition parse (file : string) (fs : gmap string string)
  : option string * option error :=
  match fs !! file with
  | Some (String c rest) => (Some (String c rest), None)
  | _ => (None, Some (ForeignError "invalid configuration"))
  end.

Definition newResources (cfg : option string) : Resources string + error :=
  match cfg with
  | Some c => inl {| restConfig := c |}
  | None => inr (ForeignError "must provide rest.Config to create Resources")
  end.

Definition listPods (r : Resources string) (selector : string) (st : State)
  : (nat + error) * State :=
  (inl (if HasPrefix selector "component" then componentPods st else addOnPods st), st).

Definition asSelector (ls : LabelSelector) : string + error :=
  match MatchExpressions ls with
  | [r] =>
      match Values r with
      | [] => inr (ForeignError "values set can't be empty")
      | _ :: _ => inl (Key r +:+ " in (" +:+ Join (Values r) "," +:+ ")")
      end
  | _ => inr (ForeignError "unsupported selector")
  end.

Definition suffix (n : nat) : string :=
  match n with
  | 0 => "100"
  | 1 => "101"
  | 2 => "102"
  | _ => "103"
  end.

Definition env : Env State string := {|
  RunCommand := run;
  FetchCommandOutput := fetch;
  FindOrInstallGoBasedProvider := install;
  conf_New := parse;
  resources_New := newResources;
  ListPods := listPods;
  LabelSelectorAsSelector := asSelector;
  maxPolls := 3;
  TempDir := "/tmp";
  nextRandom := suffix;
  openFault := fun _ _ => None;
  copyFault := fun _ _ _ => None;
  removeFault := fun _ _ => None
|}.

(** A healthy tool with no cluster yet, and one that already runs the
    cluster x. *)
Definition fresh : State :=
  {| clusters := []; createRegisters := true;
     kubeconfigOut := "apiVersion: v1"; componentPods := 4; addOnPods := 3 |}.

Definition running : State := set_clusters ["x"] fresh.

Definition handle : Cluster string := SetDefaults (NewCluster "x").

(** A tool that lists the clusters a, b and c. *)
Definition three : State := set_clusters ["a"; "b"; "c"] fresh.

(** A tool whose create command reports success and registers nothing. *)
Definition unregistering : State :=
  {| clusters := []; createRegisters := false;
     kubeconfigOut := "apiVersion: v1"; componentPods := 4; addOnPods := 3 |}.

(** A tool that runs the cluster x and prints an empty kubeconfig. *)
Definition silent : State :=
  {| clusters := ["x"]; createRegisters := true;
     kubeconfigOut := EmptyString; componentPods := 4; addOnPods := 3 |}.

(** A handle without a name, and one with a version of its own. *)
Definition nameless : Cluster string := SetDefaults (NewCluster EmptyString).
Definition pinned : Cluster string :=
  WithVersion "v0.20.0" (SetDefaults (NewCluster "y")).

Definition client : Client string := {| RESTConfig := Some "apiVersion: v1" |}.

End Sim.

(** ** The rest of the handle's operations *)

Section Operations.

Context {Ext Config : Type} (E : Env Ext Config).

(** [support.ClusterOpts], applied to a handle of this provider (the
    type assertion of the option functions then succeeds). *)
Definition ClusterOpts : Type := Cluster Config -> Cluster Config.

Definition set_image (i : string) (k : Cluster Config) : Cluster Config :=
  {| path := path k; name := name k; kubecfgFile := kubecfgFile k;
     version := version k; image := i; rc := rc k |}.

(** The package-level option functions [WithImage] and [WithPath]. *)
Definition optWithImage (i : string) : ClusterOpts := fun k => set_image i k.
Definition optWithPath (p : string) : ClusterOpts := fun k => set_path p k.

(** The [for ... range] of [WithOpts]. *)
Fixpoint WithOpts (opts : list ClusterOpts) (k : Cluster Config) : Cluster Config :=
  match opts with
  | [] => k
  | o :: rest => WithOpts rest (o k)
  end.

Definition GetKubectlContext (k : Cluster Config) : string := "kind-" +:+ name k.

Definition CreateWithConfig (k : Cluster Config) (ctx : Context)
    (kindConfigFile : string) (w : World Ext)
  : (string * option error) * Cluster Config * World Ext :=
  let args := [] in
  let args := if String.eqb kindConfigFile EmptyString then args
              else args ++ ["--config"; kindConfigFile] in
  let args := if String.eqb (image k) EmptyString then args
              else args ++ ["--image"; image k] in
  Create E k ctx args w.

(** The sequences of calls a [Create] can make: the installer [i] alone;
    then the listing [l] and the kubeconfig command [g]; or the listing,
    the create command [c], and then nothing more, the listing again, or
    the listing and the kubeconfig command. *)
Definition create_calls (i l c g : Event) (t : list Event) : Prop :=
  t = [i] \/ t = [i; l; g] \/ t = [i; l; c] \/ t = [i; l; c; l] \/
  t = [i; l; c; l; g].

End Operations.

(** More tools to run against. *)

Module Scenarios.

(** A tool whose client configuration never parses. *)
Definition unparsable : Env Sim.State string := {|
  RunCommand := Sim.run;
  FetchCommandOutput := Sim.fetch;
  FindOrInstallGoBasedProvider := Sim.install;
  conf_New := fun _ _ => (None, Some (ForeignError "invalid configuration"));
  resources_New := Sim.newResources;
  ListPods := Sim.listPods;
  LabelSelectorAsSelector := Sim.asSelector;
  maxPolls := 3;
  TempDir := "/tmp";
  nextRandom := Sim.suffix;
  openFault := fun _ _ => None;
  copyFault := fun _ _ _ => None;
  removeFault := fun _ _ => None
|}.

(** Handles with a line feed and with a slash in the name, and one with
    an image. *)
Definition twoLines : Cluster string := SetDefaults (NewCluster ("a" +:+ newline +:+ "b")).
Definition slashed : Cluster string := SetDefaults (NewCluster "a/b").
Definition withImage : Cluster string :=
  SetDefaults (WithOpts [optWithImage "kindest/node:v1.25.3"] (NewCluster "x")).

(** A tool that runs the clusters named by [twoLines] and [slashed]. *)
Definition odd : Sim.State :=
  Sim.set_clusters ["a" +:+ newline +:+ "b"; "a/b"] Sim.fresh.

End Scenarios.

(** * Properties *)

(** ** Splitting and prefixes *)

Lemma append_nil_l (s : string) : EmptyString +:+ s = s.
Proof. reflexivity. Qed.

Lemma append_cons (c : ascii) (s t : string) :
  String c s +:+ t = String c (s +:+ t).
Proof. reflexivity. Qed.

Lemma append_assoc (s t u : string) : (s +:+ t) +:+ u = s +:+ t +:+ u.
Proof.
  induction s as [|c s IH]; [reflexivity|].
  rewrite !append_cons. now rewrite IH.
Qed.

Lemma append_nil_r (s : string) : s +:+ EmptyString = s.
Proof.
  induction s as [|c s IH]; [reflexivity|].
  rewrite append_cons. now rewrite IH.
Qed.

Lemma Split_not_nil (s : string) (sep : ascii) : Split s sep <> [].
Proof.
  destruct s as [|c s]; simpl; [discriminate|].
  destruct (Ascii.eqb c sep); [discriminate|].
  destruct (Split s sep); discriminate.
Qed.

Lemma Join_cons (a b : string) (l : list string) (sep : string) :
  Join (a :: b :: l) sep = a +:+ sep +:+ Join (b :: l) sep.
Proof. reflexivity. Qed.

(** Joining the pieces with the separator gives the string back. *)
Lemma Join_Split (s : string) (sep : ascii) :
  Join (Split s sep) (String sep EmptyString) = s.
Proof.
  induction s as [|c s IH]; [reflexivity|].
  pose proof (Split_not_nil s sep) as Hnil.
  cbn [Split]. destruct (Ascii.eqb_spec c sep) as [->|Hne];
    destruct (Split s sep) as [|p ps]; try contradiction.
  - rewrite Join_cons, IH. reflexivity.
  - destruct ps as [|q ps].
    + cbn in *. now subst s.
    + rewrite Join_cons in *. subst s. reflexivity.
Qed.

(** No piece holds the separator. *)
Lemma Split_pieces_free (s : string) (sep : ascii) :
  Forall (fun piece => ContainsByte piece sep = false) (Split s sep).
Proof.
  induction s as [|c s IH]; simpl.
  - constructor; [reflexivity|constructor].
  - destruct (Ascii.eqb c sep) eqn:Hc.
    + constructor; [reflexivity|exact IH].
    + destruct (Split s sep) as [|p ps]; simpl.
      * constructor; [simpl; now rewrite Hc|constructor].
      * inversion IH; subst. constructor; [simpl; now rewrite Hc|assumption].
Qed.

(** A string that ends on the separator has an empty last piece. *)
Lemma Split_trailing_sep (s : string) (sep : ascii) :
  exists a l, Split (s +:+ String sep EmptyString) sep = a :: l ++ [EmptyString].
Proof.
  induction s as [|c s (a & l & IH)];
    rewrite ?append_nil_l, ?append_cons; cbn [Split].
  - rewrite Ascii.eqb_refl. now exists EmptyString, [].
  - rewrite IH. destruct (Ascii.eqb c sep).
    + now exists EmptyString, (a :: l).
    + now exists (String c a), l.
Qed.

Lemma clusterExists_range_In (lines : list string) (n : string) :
  clusterExists_range lines n = true <-> In n lines.
Proof.
  induction lines as [|c rest IH]; simpl.
  - split; [discriminate|contradiction].
  - destruct (String.eqb_spec c n) as [->|Hne].
    + split; auto.
    + rewrite IH. split; [now right|]. intros [?|?]; [contradiction|assumption].
Qed.

Lemma HasPrefix_app (p a b : string) :
  HasPrefix (p +:+ a) (p +:+ b) = HasPrefix a b.
Proof.
  induction p as [|c p IH]; [reflexivity|].
  rewrite !append_cons. cbn [HasPrefix]. now rewrite Ascii.eqb_refl, IH.
Qed.

Lemma HasPrefix_self_app (s t : string) : HasPrefix (s +:+ t) s = true.
Proof.
  induction s as [|c s IH]; [now destruct t|].
  rewrite append_cons. cbn [HasPrefix]. now rewrite Ascii.eqb_refl.
Qed.

(** ** What each call leaves alone *)

Section Frames.

Context {Ext Config : Type} (E : Env Ext Config).
Implicit Types (k : Cluster Config) (w : World Ext).

Lemma utils_RunCommand_frame command w p w' :
  utils_RunCommand E command w = (p, w') ->
  p = (RunCommand E command (ext w)).1 /\
  trace w' = trace w ++ [EvRunCommand command] /\
  files w' = files w /\ drawn w' = drawn w /\ kindVersion w' = kindVersion w.
Proof.
  unfold utils_RunCommand. destruct (RunCommand E command (ext w)) as [q x].
  intros [= <- <-]. simpl. auto.
Qed.

Lemma utils_FetchCommandOutput_frame command w out w' :
  utils_FetchCommandOutput E command w = (out, w') ->
  out = (FetchCommandOutput E command (ext w)).1 /\
  trace w' = trace w ++ [EvFetchCommandOutput command] /\
  files w' = files w /\ drawn w' = drawn w /\ kindVersion w' = kindVersion w.
Proof.
  unfold utils_FetchCommandOutput.
  destruct (FetchCommandOutput E command (ext w)) as [q x].
  intros [= <- <-]. simpl. auto.
Qed.

Lemma clusterExists_frame k n w out ok w' :
  clusterExists E k n w = ((out, ok), w') ->
  out = (FetchCommandOutput E (path k +:+ " get clusters") (ext w)).1 /\
  ok = clusterExists_range (Split out LF) n /\
  trace w' = trace w ++ [EvFetchCommandOutput (path k +:+ " get clusters")] /\
  files w' = files w /\ drawn w' = drawn w /\ kindVersion w' = kindVersion w.
Proof.
  unfold clusterExists.
  destruct (utils_FetchCommandOutput E _ w) as [o w1] eqn:Hf.
  apply utils_FetchCommandOutput_frame in Hf as (-> & Ht & Hfs & Hd & Hv).
  intros [= <- <- <-]. auto 6.
Qed.

Lemma findOrInstallKind_frame k w err k' w' :
  findOrInstallKind E k w = (err, k', w') ->
  kindVersion w' =
    (if String.eqb (version k) EmptyString then kindVersion w else version k) /\
  trace w' = trace w ++
    [EvFindOrInstall (path k) "kind" "sigs.k8s.io/kind" (kindVersion w')] /\
  files w' = files w /\ drawn w' = drawn w /\
  name k' = name k /\ kubecfgFile k' = kubecfgFile k /\
  version k' = version k /\ rc k' = rc k.
Proof.
  unfold findOrInstallKind, utils_FindOrInstallGoBasedProvider.
  destruct (FindOrInstallGoBasedProvider E _ _ _ _ _) as [[p e] x].
  intros [= <- <- <-].
  destruct (String.eqb (version k) EmptyString), (String.eqb p EmptyString);
    simpl; auto 10.
Qed.

Lemma CreateTemp_loop_spec retries prefix suffix w res w' :
  CreateTemp_loop E retries prefix suffix w = (res, w') ->
  trace w' = trace w /\ kindVersion w' = kindVersion w /\ ext w' = ext w /\
  match res with
  | inl file => files w !! file = None /\
                files w' = <[file := EmptyString]> (files w)
  | inr _ => files w' = files w
  end.
Proof.
  revert w. induction retries as [|r IH]; intros w; cbn [CreateTemp_loop];
    destruct (files w !! _) eqn:Hlook.
  - intros [= <- <-]. simpl. repeat split; auto.
  - destruct (openFault E _ _); intros [= <- <-]; simpl; repeat split; auto.
  - intros H. apply IH in H. exact H.
  - destruct (openFault E _ _); intros [= <- <-]; simpl; repeat split; auto.
Qed.

Lemma os_CreateTemp_spec dir pattern w res w' :
  os_CreateTemp E dir pattern w = (res, w') ->
  trace w' = trace w /\ kindVersion w' = kindVersion w /\ ext w' = ext w /\
  match res with
  | inl file => files w !! file = None /\
                files w' = <[file := EmptyString]> (files w)
  | inr _ => files w' = files w
  end.
Proof.
  unfold os_CreateTemp. destruct (prefixAndSuffix pattern) as [[pre suf]|e].
  - apply CreateTemp_loop_spec.
  - intros [= <- <-]. repeat split; auto.
Qed.

Lemma io_Copy_spec file data w n err w' :
  io_Copy E file data w = ((n, err), w') ->
  trace w' = trace w /\ kindVersion w' = kindVersion w /\ ext w' = ext w /\
  exists written,
    files w' = <[file := written]> (files w) /\ n = String.length written /\
    (copyFault E file data (ext w) = None -> written = data /\ err = None).
Proof.
  unfold io_Copy. destruct (copyFault E file data (ext w)) as [[m e]|].
  - intros [= <- <- <-]. simpl. do 3 (split; [reflexivity|]).
    eexists. split; [reflexivity|]. split; [reflexivity|discriminate].
  - intros [= <- <- <-]. simpl. do 3 (split; [reflexivity|]).
    eexists. split; [reflexivity|]. split; [reflexivity|]. intros _. now split.
Qed.

Lemma length_zero_empty (s : string) : String.length s = 0 -> s = EmptyString.
Proof. destruct s; [reflexivity|discriminate]. Qed.

(** What [getKubeconfig] does to the handle and to the world; when it
    returns no error, the path it returns is the handle's, the file was
    not there before, and it now holds at least one byte. *)
Lemma getKubeconfig_spec k w res err k' w' :
  getKubeconfig E k w = ((res, err), k', w') ->
  trace w' = trace w ++
    [EvRunCommand (path k +:+ " get kubeconfig --name " +:+ name k)] /\
  kindVersion w' = kindVersion w /\
  path k' = path k /\ name k' = name k /\ version k' = version k /\
  rc k' = rc k /\
  (err = None ->
   kubecfgFile k' = res /\ files w !! res = None /\
   exists content, content <> EmptyString /\
                   files w' = <[res := content]> (files w)).
Proof.
  unfold getKubeconfig.
  destruct (utils_RunCommand E _ w) as [p w1] eqn:Hrun.
  apply utils_RunCommand_frame in Hrun as (_ & Ht & Hf & _ & Hv).
  destruct (Err p); [intros [= <- <- <- <-]; repeat split; auto; try discriminate|].
  destruct (OutErr p); [intros [= <- <- <- <-]; repeat split; auto; try discriminate|].
  destruct (os_CreateTemp E _ _ w1) as [[file|e] w2] eqn:Hct;
    apply os_CreateTemp_spec in Hct as (Ht2 & Hv2 & Hx2 & Hfile).
  2:{ intros [= <- <- <- <-]. repeat split; try congruence; try discriminate. }
  destruct Hfile as (Hnone & Hf2).
  destruct (io_Copy E file (Out p) w2) as [[n cerr] w3] eqn:Hcp.
  apply io_Copy_spec in Hcp as (Ht3 & Hv3 & _ & written & Hf3 & Hn & _).
  destruct (Nat.eqb_spec n 0) as [Hz|Hnz]; cbn [orb].
  { intros [= <- <- <- <-]. repeat split; try congruence; try discriminate. }
  destruct cerr; cbn [isSome].
  { intros [= <- <- <- <-]. repeat split; try congruence; try discriminate. }
  intros [= <- <- <- <-]. repeat split; try congruence.
  exists written. split.
  - intros ->. now apply Hnz.
  - rewrite Hf3, Hf2, Hf. apply insert_insert_eq.
Qed.

End Frames.

(** ** The lifecycle operations *)

Section Lifecycle.

Context {Ext Config : Type} (E : Env Ext Config).
Implicit Types (k : Cluster Config) (w : World Ext).

(** The kubeconfig command of a handle is none of its create commands,
    and the other way round. *)
Lemma kubeconfig_not_create k :
  create_invocation k
    (EvRunCommand (path k +:+ " get kubeconfig --name " +:+ name k)) = false.
Proof. unfold create_invocation. now rewrite HasPrefix_app. Qed.

Lemma create_not_kubeconfig k args :
  kubeconfig_invocation k (EvRunCommand (create_command k args)) = false.
Proof.
  unfold kubeconfig_invocation, create_command.
  destruct args; rewrite ?append_assoc; now rewrite HasPrefix_app.
Qed.

Lemma create_is_create k args :
  create_invocation k (EvRunCommand (create_command k args)) = true.
Proof.
  unfold create_invocation, create_command. destruct args.
  - rewrite <- (append_nil_r (path k +:+ _)) at 1. apply HasPrefix_self_app.
  - apply HasPrefix_self_app.
Qed.

Lemma added_app w w' (t : list Event) :
  trace w' = trace w ++ t -> added w w' = t.
Proof.
  unfold added. intros ->. induction (trace w) as [|e l IH]; [reflexivity|exact IH].
Qed.

(** C2.  The existence check is an exact match against the lines of the
    listing: [clusterExists] returns the listing it fetched, and it
    answers true exactly when the name is one of the pieces the listing
    splits into at its line feeds.  For the listing of the three lines
    a, b and c the name b exists and the name d does not, and the
    listing foo-bar does not make the name foo exist. *)
Theorem clusterExists_exact_line k (n : string) w (out : string) (x : Ext) :
  FetchCommandOutput E (path k +:+ " get clusters") (ext w) = (out, x) ->
  (clusterExists E k n w).1.1 = out /\
  ((clusterExists E k n w).1.2 = true <-> In n (Split out LF)) /\
  (out = "a" +:+ newline +:+ "b" +:+ newline +:+ "c" ->
   (n = "b" -> (clusterExists E k n w).1.2 = true) /\
   (n = "d" -> (clusterExists E k n w).1.2 = false)) /\
  (out = "foo-bar" -> n = "foo" -> (clusterExists E k n w).1.2 = false).
Proof.
  intros Hfetch.
  destruct (clusterExists E k n w) as [[o ok] w'] eqn:Hce.
  apply clusterExists_frame in Hce as (Ho & Hok & _).
  rewrite Hfetch in Ho. cbn [fst snd] in *. subst o ok.
  split; [reflexivity|]. split; [apply clusterExists_range_In|].
  split.
  - intros ->. split; intros ->; reflexivity.
  - intros -> ->. reflexivity.
Qed.

(** C10.  For every handle the existence check of the empty name
    answers true when the listing is empty or ends on a line feed: the
    split then has an empty piece.  So [Create] on a handle whose name
    is empty, once the tool is resolved, takes the already-exists
    branch: it is the kubeconfig fetch and nothing else, and no create
    command is run. *)
Theorem clusterExists_empty_name k w (out : string) (x : Ext)
    (ctx : Context) (args : list string) :
  FetchCommandOutput E (path k +:+ " get clusters") (ext w) = (out, x) ->
  (out = EmptyString \/ exists s, out = s +:+ newline) ->
  (clusterExists E k EmptyString w).1.2 = true /\
  forall k0 w0,
    name k0 = EmptyString ->
    findOrInstallKind E k0 w0 = (None, k, w) ->
    Create E k0 ctx args w0
      = getKubeconfig E k (clusterExists E k EmptyString w).2 /\
    added w0 (Create E k0 ctx args w0).2 =
      [EvFindOrInstall (path k0) "kind" "sigs.k8s.io/kind" (kindVersion w);
       EvFetchCommandOutput (path k +:+ " get clusters");
       EvRunCommand (path k +:+ " get kubeconfig --name " +:+ name k)] /\
    count_events (create_invocation k) (added w0 (Create E k0 ctx args w0).2) = 0.
Proof.
  intros Hfetch Hout.
  assert (Hyes : (clusterExists E k EmptyString w).1.2 = true).
  { destruct (clusterExists E k EmptyString w) as [[o ok] w'] eqn:Hce.
    apply clusterExists_frame in Hce as (Ho & Hok & _).
    rewrite Hfetch in Ho. cbn [fst snd] in *. subst o ok.
    apply clusterExists_range_In.
    destruct Hout as [->|[s ->]]; [now left|].
    destruct (Split_trailing_sep s LF) as (a & l & Hs).
    unfold newline. rewrite Hs. right. apply in_or_app. right. now left. }
  split; [exact Hyes|].
  intros k0 w0 Hname Hfind.
  pose proof (findOrInstallKind_frame E _ _ _ _ _ Hfind)
    as (_ & Ht1 & _ & _ & Hn & _).
  assert (Hcreate : Create E k0 ctx args w0
                    = getKubeconfig E k (clusterExists E k EmptyString w).2).
  { unfold Create. rewrite Hfind, Hn, Hname.
    destruct (clusterExists E k EmptyString w) as [[o ok] w'] eqn:Hce.
    cbn [fst snd] in *. now rewrite Hyes. }
  split; [exact Hcreate|].
  assert (Hadded : added w0 (Create E k0 ctx args w0).2 =
    [EvFindOrInstall (path k0) "kind" "sigs.k8s.io/kind" (kindVersion w);
     EvFetchCommandOutput (path k +:+ " get clusters");
     EvRunCommand (path k +:+ " get kubeconfig --name " +:+ name k)]).
  { rewrite Hcreate.
    destruct (clusterExists E k EmptyString w) as [[o ok] w'] eqn:Hce.
    apply clusterExists_frame in Hce as (_ & _ & Ht2 & _).
    cbn [fst snd].
    destruct (getKubeconfig E k w') as [[[res err] k'] w''] eqn:Hgk.
    apply getKubeconfig_spec in Hgk as (Ht3 & _).
    apply added_app. cbn [snd]. rewrite Ht3, Ht2, Ht1.
    now rewrite <- !app_assoc. }
  split; [exact Hadded|].
  rewrite Hadded. unfold count_events. cbn [List.filter create_invocation].
  fold (create_invocation k
          (EvRunCommand (path k +:+ " get kubeconfig --name " +:+ name k))).
  now rewrite kubeconfig_not_create.
Qed.

Lemma initKubernetesAccessClients_frame k w err k' :
  initKubernetesAccessClients E k w = (err, k') ->
  kubecfgFile k' = kubecfgFile k /\ name k' = name k /\ path k' = path k /\
  (err = None -> rc k' = (conf_New E (kubecfgFile k) (files w)).1).
Proof.
  unfold initKubernetesAccessClients.
  destruct (conf_New E (kubecfgFile k) (files w)) as [cfg [e|]];
    intros [= <- <-]; repeat split; auto; discriminate.
Qed.

(** A [Create] that returns no error returns the path the handle keeps,
    and the file is on disk. *)
Lemma Create_success k ctx args w p k' w' :
  Create E k ctx args w = ((p, None), k', w') ->
  GetKubeconfig k' = p /\ is_Some (files w' !! p) /\ name k' = name k.
Proof.
  unfold Create, GetKubeconfig.
  destruct (findOrInstallKind E k w) as [[e k1] w1] eqn:Hfind.
  apply findOrInstallKind_frame in Hfind as (_ & _ & _ & _ & Hn & _).
  destruct e; [discriminate|].
  destruct (clusterExists E k1 (name k1) w1) as [[o ok] w2].
  destruct ok.
  { intros Hgk. apply getKubeconfig_spec in Hgk
      as (_ & _ & _ & Hn2 & _ & _ & Hok).
    destruct (Hok eq_refl) as (Hfile & _ & c & _ & Hfs).
    repeat split; try congruence. rewrite Hfs, lookup_insert_eq. eauto. }
  destruct (utils_RunCommand E _ w2) as [pr w3].
  destruct (Err pr); [discriminate|].
  destruct (clusterExists E k1 (name k1) w3) as [[o' ok'] w4].
  destruct ok'; cbn [negb]; [|discriminate].
  destruct (getKubeconfig E k1 w4) as [[[kConfig e] k2] w5] eqn:Hgk.
  apply getKubeconfig_spec in Hgk as (_ & _ & _ & Hn2 & _ & _ & Hok).
  destruct e; [discriminate|].
  destruct (Hok eq_refl) as (Hfile & _ & c & _ & Hfs).
  destruct (initKubernetesAccessClients E k2 w5) as [e k3] eqn:Hinit.
  apply initKubernetesAccessClients_frame in Hinit as (Hf3 & Hn3 & _).
  intros [= ? ? ? ?]; subst.
  repeat split; try congruence. rewrite Hfs, lookup_insert_eq. eauto.
Qed.

(** C1, as the code has it.  When [Create] has succeeded and is called
    again on the same handle while the cluster is still listed, the
    second call runs no create command: it resolves the tool, lists the
    clusters and fetches the kubeconfig again.  The kubeconfig goes to
    a new temporary file each time, so a second call that succeeds
    returns a path that differs from the first one, and both files are
    on disk. *)
Theorem Create_twice k (ctx1 ctx2 : Context) (args1 args2 : list string) w
    (p1 : string) k1 w1 k1' w1' (out : string) w1''
    (p2 : string) (err2 : option error) k2 w2 :
  Create E k ctx1 args1 w = ((p1, None), k1, w1) ->
  findOrInstallKind E k1 w1 = (None, k1', w1') ->
  clusterExists E k1' (name k1') w1' = ((out, true), w1'') ->
  Create E k1 ctx2 args2 w1 = ((p2, err2), k2, w2) ->
  added w1 w2 =
    [EvFindOrInstall (path k1) "kind" "sigs.k8s.io/kind" (kindVersion w1');
     EvFetchCommandOutput (path k1' +:+ " get clusters");
     EvRunCommand (path k1' +:+ " get kubeconfig --name " +:+ name k1')] /\
  count_events (create_invocation k1') (added w1 w2) = 0 /\
  name k2 = name k /\
  (err2 = None ->
   p2 <> p1 /\ GetKubeconfig k2 = p2 /\
   is_Some (files w2 !! p1) /\ is_Some (files w2 !! p2)).
Proof.
  intros H1 Hfind Hce H2.
  apply Create_success in H1 as (_ & Hp1 & Hname).
  unfold Create in H2. rewrite Hfind, Hce in H2.
  apply findOrInstallKind_frame in Hfind as (_ & Ht1 & Hf1 & _ & Hn1 & _).
  apply clusterExists_frame in Hce as (_ & _ & Ht2 & Hf2 & _).
  apply getKubeconfig_spec in H2 as (Ht3 & _ & _ & Hn2 & _ & _ & Hok).
  assert (Hadded : added w1 w2 =
    [EvFindOrInstall (path k1) "kind" "sigs.k8s.io/kind" (kindVersion w1');
     EvFetchCommandOutput (path k1' +:+ " get clusters");
     EvRunCommand (path k1' +:+ " get kubeconfig --name " +:+ name k1')]).
  { apply added_app. rewrite Ht3, Ht2, Ht1. now rewrite <- !app_assoc. }
  split; [exact Hadded|]. split.
  { rewrite Hadded. unfold count_events. cbn [List.filter create_invocation].
    fold (create_invocation k1'
            (EvRunCommand (path k1' +:+ " get kubeconfig --name " +:+ name k1'))).
    now rewrite kubeconfig_not_create. }
  split; [congruence|].
  intros ->. destruct (Hok eq_refl) as (Hfile & Hnone & c & _ & Hfs).
  rewrite Hf2, Hf1 in Hnone.
  assert (Hne : p2 <> p1).
  { intros ->. rewrite Hnone in Hp1. now destruct Hp1. }
  repeat split; [exact Hne|exact Hfile| |].
  - rewrite Hfs, lookup_insert_ne, Hf2, Hf1; [exact Hp1|exact Hne].
  - rewrite Hfs, lookup_insert_eq. eauto.
Qed.

(** C4.  When the create command reports no error and the name is still
    not a line of the listing fetched after it, [Create] returns the
    still-not-in-list error with the listing in it.  The create command
    has run once, no kubeconfig command has run, no file is written and
    the handle keeps the credential path and the configuration it
    had. *)
Theorem Create_still_absent k (ctx : Context) (args : list string) w
    k1 w1 (out1 : string) w2 (p : Proc) w3 (out2 : string) w4 :
  findOrInstallKind E k w = (None, k1, w1) ->
  clusterExists E k1 (name k1) w1 = ((out1, false), w2) ->
  utils_RunCommand E (create_command k1 args) w2 = (p, w3) ->
  Err p = None ->
  clusterExists E k1 (name k1) w3 = ((out2, false), w4) ->
  Create E k ctx args w
    = ((EmptyString, Some (ErrStillNotInList (name k1) out2)), k1, w4) /\
  added w w4 =
    [EvFindOrInstall (path k) "kind" "sigs.k8s.io/kind" (kindVersion w1);
     EvFetchCommandOutput (path k1 +:+ " get clusters");
     EvRunCommand (create_command k1 args);
     EvFetchCommandOutput (path k1 +:+ " get clusters")] /\
  count_events (create_invocation k1) (added w w4) = 1 /\
  count_events (kubeconfig_invocation k1) (added w w4) = 0 /\
  files w4 = files w /\
  GetKubeconfig k1 = GetKubeconfig k /\
  KubernetesRestConfig k1 = KubernetesRestConfig k.
Proof.
  intros Hfind Hce1 Hrun Herr Hce2.
  assert (Hcreate : Create E k ctx args w
    = ((EmptyString, Some (ErrStillNotInList (name k1) out2)), k1, w4)).
  { unfold Create. rewrite Hfind, Hce1, Hrun, Herr, Hce2. reflexivity. }
  apply findOrInstallKind_frame in Hfind
    as (_ & Ht1 & Hf1 & _ & _ & Hkf & _ & Hrc).
  apply clusterExists_frame in Hce1 as (_ & _ & Ht2 & Hf2 & _).
  apply utils_RunCommand_frame in Hrun as (_ & Ht3 & Hf3 & _).
  apply clusterExists_frame in Hce2 as (_ & _ & Ht4 & Hf4 & _).
  assert (Hadded : added w w4 =
    [EvFindOrInstall (path k) "kind" "sigs.k8s.io/kind" (kindVersion w1);
     EvFetchCommandOutput (path k1 +:+ " get clusters");
     EvRunCommand (create_command k1 args);
     EvFetchCommandOutput (path k1 +:+ " get clusters")]).
  { apply added_app. rewrite Ht4, Ht3, Ht2, Ht1. now rewrite <- !app_assoc. }
  split; [exact Hcreate|]. split; [exact Hadded|].
  rewrite Hadded. unfold count_events.
  cbn [List.filter create_invocation kubeconfig_invocation].
  fold (create_invocation k1 (EvRunCommand (create_command k1 args))).
  fold (kubeconfig_invocation k1 (EvRunCommand (create_command k1 args))).
  rewrite create_is_create, create_not_kubeconfig.
  repeat split; try reflexivity; try assumption. congruence.
Qed.



(** C3, what the code does.  When the kubeconfig command prints nothing
    and the temporary file has been created, [getKubeconfig] returns
    the bytes-copied error for zero bytes and an empty path; but the
    handle's credential path has already been set to the temporary
    file, and that file is on disk with no byte in it. *)
Theorem getKubeconfig_zero_bytes k w (p : Proc) w1 (file : string) w2 :
  utils_RunCommand E (path k +:+ " get kubeconfig --name " +:+ name k) w
    = (p, w1) ->
  Err p = None -> OutErr p = None -> Out p = EmptyString ->
  os_CreateTemp E EmptyString ("kind-cluser-" +:+ name k +:+ "-kubecfg") w1
    = (inl file, w2) ->
  copyFault E file EmptyString (ext w2) = None ->
  (getKubeconfig E k w).1.1
    = (EmptyString, Some (ErrKubecfgBytesCopied 0 None)) /\
  GetKubeconfig (getKubeconfig E k w).1.2 = file /\
  files (getKubeconfig E k w).2 !! file = Some EmptyString.
Proof.
  intros Hrun Herr Hout Hempty Hct Hfault.
  unfold getKubeconfig. rewrite Hrun, Herr, Hout, Hempty, Hct.
  unfold io_Copy. rewrite Hfault. cbn.
  repeat split. apply lookup_insert_eq.
Qed.

(** C8, what the code does.  On the branch where the cluster is already
    listed, [Create] is the kubeconfig fetch alone: the client
    configuration is not initialised, and the handle keeps the rest
    configuration it had, which for a new handle is none. *)
Theorem Create_existing_keeps_rc k (ctx : Context) (args : list string) w
    k1 w1 (out : string) w2 :
  findOrInstallKind E k w = (None, k1, w1) ->
  clusterExists E k1 (name k1) w1 = ((out, true), w2) ->
  Create E k ctx args w = getKubeconfig E k1 w2 /\
  KubernetesRestConfig (Create E k ctx args w).1.2 = KubernetesRestConfig k.
Proof.
  intros Hfind Hce.
  assert (HC : Create E k ctx args w = getKubeconfig E k1 w2).
  { unfold Create. now rewrite Hfind, Hce. }
  split; [exact HC|]. rewrite HC.
  apply findOrInstallKind_frame in Hfind as (_ & _ & _ & _ & _ & _ & _ & Hrc).
  destruct (getKubeconfig E k1 w2) as [[[res err] k2] w3] eqn:Hgk.
  apply getKubeconfig_spec in Hgk as (_ & _ & _ & _ & _ & Hrc2 & _).
  unfold KubernetesRestConfig. cbn [fst snd]. congruence.
Qed.

(** C9.  The default version is one variable for all handles.  A handle
    with a version of its own writes it to the variable when it
    resolves the tool, and the installer is called with it; a handle
    without one leaves the variable alone and the installer is called
    with what the variable holds, so after a handle has set the
    variable the next handle without a version resolves the tool at the
    version of the first. *)
Theorem kindVersion_is_shared k1 k2 w (err1 err2 : option error)
    k1' w1 k2' w2 :
  version k1 <> EmptyString ->
  version k2 = EmptyString ->
  findOrInstallKind E k1 w = (err1, k1', w1) ->
  findOrInstallKind E k2 w1 = (err2, k2', w2) ->
  kindVersion w1 = version k1 /\
  added w w1 =
    [EvFindOrInstall (path k1) "kind" "sigs.k8s.io/kind" (version k1)] /\
  kindVersion w2 = version k1 /\
  added w1 w2 =
    [EvFindOrInstall (path k2) "kind" "sigs.k8s.io/kind" (version k1)] /\
  (forall k0 w0,
     version k0 = EmptyString ->
     kindVersion (findOrInstallKind E k0 w0).2 = kindVersion w0 /\
     added w0 (findOrInstallKind E k0 w0).2 =
       [EvFindOrInstall (path k0) "kind" "sigs.k8s.io/kind" (kindVersion w0)]).
Proof.
  intros Hset Hunset H1 H2.
  apply findOrInstallKind_frame in H1 as (Hv1 & Ht1 & _).
  apply findOrInstallKind_frame in H2 as (Hv2 & Ht2 & _).
  apply String.eqb_neq in Hset. rewrite Hset in Hv1.
  rewrite Hunset in Hv2. cbn in Hv2.
  rewrite Hv1 in *. rewrite Hv2 in *.
  split; [reflexivity|]. split; [now apply added_app|].
  split; [reflexivity|]. split; [now apply added_app|].
  intros k0 w0 Hk0.
  destruct (findOrInstallKind E k0 w0) as [[e k0'] w0'] eqn:H0.
  apply findOrInstallKind_frame in H0 as (Hv0 & Ht0 & _).
  rewrite Hk0 in Hv0. cbn in Hv0. rewrite Hv0 in Ht0.
  split; [exact Hv0|now apply added_app].
Qed.

End Lifecycle.

(** ** The readiness gate *)

Section Readiness.

Context {Ext Config : Type} (E : Env Ext Config).
Implicit Types (k : Cluster Config) (w : World Ext).

Lemma ResourceListN_spec r n sel w res w' :
  ResourceListN E r n sel w = (res, w') ->
  exists observed,
    trace w' = trace w ++ [EvListPods sel observed] /\
    match res with
    | inl done => exists found, observed = inl found /\ done = Nat.leb n found
    | inr e => observed = inr e
    end.
Proof.
  unfold ResourceListN. destruct (ListPods E r sel (ext w)) as [[found|e] x];
    intros [= <- <-]; eexists; (split; [reflexivity|]); eauto.
Qed.

(** A wait polls one selector, at most [polls] times, and returns no
    error only when its last poll saw enough pods. *)
Lemma wait_For_loop_spec polls r n sel w err w' :
  wait_For_loop polls (ResourceListN E r n sel) w = (err, w') ->
  exists t,
    trace w' = trace w ++ t /\ Forall (poll_of sel) t /\
    List.length t <= polls /\
    (err = None -> ends_satisfied sel n t).
Proof.
  revert w. induction polls as [|polls IH]; intros w; cbn [wait_For_loop].
  - intros [= <- <-]. exists []. rewrite app_nil_r.
    repeat split; auto; discriminate.
  - destruct (ResourceListN E r n sel w) as [res w1] eqn:Hpoll.
    apply ResourceListN_spec in Hpoll as (observed & Ht & Hres).
    destruct res as [[|]|e].
    + intros [= <- <-]. destruct Hres as (found & -> & Hdone).
      exists [EvListPods sel (inl found)]. split; [exact Ht|].
      split; [repeat constructor; now eexists|]. split; [cbn; lia|].
      intros _. exists [], found. split; [reflexivity|].
      symmetry in Hdone. now apply Nat.leb_le in Hdone.
    + intros Hrest. apply IH in Hrest as (t & Ht' & Hall & Hlen & Hend).
      exists (EvListPods sel observed :: t). split.
      { rewrite Ht', Ht. now rewrite <- app_assoc. }
      split; [constructor; [now eexists|exact Hall]|]. split; [cbn; lia|].
      intros Hnone. destruct (Hend Hnone) as (before & found & -> & Hle).
      now exists (EvListPods sel observed :: before), found.
    + intros [= <- <-]. subst observed.
      exists [EvListPods sel (inr e)]. split; [exact Ht|].
      split; [repeat constructor; now eexists|]. split; [cbn; lia|].
      discriminate.
Qed.

(** C5.  With the resource client built and the two selectors built,
    [WaitForControlPlane] waits for the control-plane group with an
    expected count of four, the number of its values, and only if that
    wait returns no error does it wait for the add-on group with an
    expected count of three; an error of either wait is the result.
    The polls made are those of the first selector followed by those of
    the second, and there is a poll of the second only after a poll of
    the first that saw four pods or more. *)
Theorem WaitForControlPlane_sequential k (ctx : Context) (client : Client Config)
    w (r : Resources Config) (sel1 sel2 : string)
    (err : option error) w' :
  resources_New E (RESTConfig client) = inl r ->
  LabelSelectorAsSelector E {| MatchExpressions := [controlPlaneGroup] |} = inl sel1 ->
  LabelSelectorAsSelector E {| MatchExpressions := [addOnGroup] |} = inl sel2 ->
  WaitForControlPlane E k ctx client w = (err, w') ->
  List.length (Values controlPlaneGroup) = 4 /\
  List.length (Values addOnGroup) = 3 /\
  (err, w') =
    (let '(err1, w1) := wait_For E (ResourceListN E r 4 sel1) w in
     match err1 with
     | Some e => (Some e, w1)
     | None => wait_For E (ResourceListN E r 3 sel2) w1
     end) /\
  exists t1 t2,
    added w w' = t1 ++ t2 /\
    Forall (poll_of sel1) t1 /\ Forall (poll_of sel2) t2 /\
    (t2 <> [] -> ends_satisfied sel1 4 t1) /\
    (err = None -> ends_satisfied sel1 4 t1 /\ ends_satisfied sel2 3 t2).
Proof.
  intros Hres Hsel1 Hsel2. unfold WaitForControlPlane. rewrite Hres.
  cbn [WaitForControlPlane_range]. rewrite Hsel1, Hsel2.
  change (List.length (Values controlPlaneGroup)) with 4.
  change (List.length (Values addOnGroup)) with 3.
  intros Hrun. do 2 (split; [reflexivity|]).
  destruct (wait_For E (ResourceListN E r 4 sel1) w) as [err1 w1] eqn:Hw1.
  apply wait_For_loop_spec in Hw1 as (t1 & Ht1 & Hall1 & _ & Hend1).
  destruct err1 as [e1|].
  - injection Hrun as <- <-. split; [reflexivity|].
    exists t1, []. rewrite app_nil_r.
    split; [now apply added_app|]. split; [exact Hall1|].
    split; [constructor|]. split; [congruence|discriminate].
  - destruct (wait_For E (ResourceListN E r 3 sel2) w1) as [err2 w2] eqn:Hw2.
    apply wait_For_loop_spec in Hw2 as (t2 & Ht2 & Hall2 & _ & Hend2).
    destruct err2 as [e2|]; injection Hrun as <- <-;
      (split; [reflexivity|]); exists t1, t2;
      (split; [apply added_app; rewrite Ht2, Ht1; now rewrite <- app_assoc|]);
      (split; [exact Hall1|]); (split; [exact Hall2|]); split; auto;
      discriminate.
Qed.




End Readiness.

(** ** The operations run against the simulated tool *)

Section Runs.

Import Sim.

Lemma clusterExists_exact_line_witness :
  FetchCommandOutput env (path handle +:+ " get clusters") three
    = ("a" +:+ newline +:+ "b" +:+ newline +:+ "c", three) /\
  (clusterExists env handle "b" (initWorld three)).1.2 = true /\
  (In "b" (Split ("a" +:+ newline +:+ "b" +:+ newline +:+ "c") LF)).
Proof.
  split; [reflexivity|].
  destruct (clusterExists_exact_line env handle "b" (initWorld three) _ _ eq_refl)
    as (_ & Hiff & Hex & _).
  split; [now apply Hex|]. apply Hiff. now apply Hex.
Defined.

(** With no cluster the listing is empty, and the handle without a name
    goes straight to the kubeconfig command. *)
Lemma clusterExists_empty_name_witness :
  (clusterExists env nameless EmptyString
     (findOrInstallKind env nameless (initWorld fresh)).2).1.2 = true /\
  added (initWorld fresh) (Create env nameless Background [] (initWorld fresh)).2 =
    [EvFindOrInstall "kind" "kind" "sigs.k8s.io/kind" "v0.17.0";
     EvFetchCommandOutput "kind get clusters";
     EvRunCommand "kind get kubeconfig --name "].
Proof.
  destruct (clusterExists_empty_name env nameless
              (findOrInstallKind env nameless (initWorld fresh)).2
              EmptyString fresh Background [] eq_refl (or_introl eq_refl))
    as (Hyes & Hcreate).
  split; [exact Hyes|].
  destruct (Hcreate nameless (initWorld fresh) eq_refl eq_refl) as (_ & Hadded & _).
  exact Hadded.
Defined.

(** The first [Create] makes the cluster; the second finds it listed. *)
Lemma Create_twice_witness :
  (Create env handle Background [] (initWorld fresh)).1.1
    = ("/tmp/kind-cluser-x-kubecfg100", None) /\
  count_events (create_invocation handle)
    (added (Create env handle Background [] (initWorld fresh)).2
           (Create env (Create env handle Background [] (initWorld fresh)).1.2
                   Background []
                   (Create env handle Background [] (initWorld fresh)).2).2) = 0 /\
  (Create env (Create env handle Background [] (initWorld fresh)).1.2
          Background []
          (Create env handle Background [] (initWorld fresh)).2).1.1.1
    <> "/tmp/kind-cluser-x-kubecfg100".
Proof.
  edestruct (Create_twice env handle Background Background [] []
               (initWorld fresh)) as (_ & Hcount & _ & Hpaths);
    [vm_compute; reflexivity..|].
  destruct (Hpaths eq_refl) as (Hne & _).
  vm_compute in Hcount. vm_compute.
  split; [reflexivity|]. split; [exact Hcount|exact Hne].
Defined.

(** C1, as the spec has it, fails: two calls of [Create] in succession
    on the same handle return two different paths. *)
Lemma Create_twice_paths_differ :
  let first := Create env handle Background [] (initWorld fresh) in
  let second := Create env first.1.2 Background [] first.2 in
  first.1.1 = ("/tmp/kind-cluser-x-kubecfg100", None) /\
  second.1.1 = ("/tmp/kind-cluser-x-kubecfg101", None) /\
  first.1.1.1 <> second.1.1.1.
Proof. vm_compute. repeat split. discriminate. Qed.

Lemma Create_still_absent_witness :
  Create env handle Background [] (initWorld unregistering)
    = ((EmptyString, Some (ErrStillNotInList "x" EmptyString)), handle,
       (Create env handle Background [] (initWorld unregistering)).2) /\
  count_events (create_invocation handle)
    (added (initWorld unregistering)
           (Create env handle Background [] (initWorld unregistering)).2) = 1 /\
  count_events (kubeconfig_invocation handle)
    (added (initWorld unregistering)
           (Create env handle Background [] (initWorld unregistering)).2) = 0.
Proof.
  edestruct (Create_still_absent env handle Background [] (initWorld unregistering))
    as (HC & _ & Hone & Hzero & _); [reflexivity..|].
  rewrite HC. cbn [snd]. split; [reflexivity|]. split; [exact Hone|exact Hzero].
Defined.


(** The empty kubeconfig: an error comes back, and the handle points at
    the empty file. *)
Lemma getKubeconfig_zero_bytes_witness :
  (getKubeconfig env handle (initWorld silent)).1.1
    = (EmptyString, Some (ErrKubecfgBytesCopied 0 None)) /\
  GetKubeconfig (getKubeconfig env handle (initWorld silent)).1.2
    = "/tmp/kind-cluser-x-kubecfg100" /\
  files (getKubeconfig env handle (initWorld silent)).2
    !! "/tmp/kind-cluser-x-kubecfg100" = Some EmptyString.
Proof.
  eapply (getKubeconfig_zero_bytes env handle (initWorld silent)); reflexivity.
Defined.

(** [Create] on a new handle for a cluster that is already there: it
    returns a path and no error, and the rest configuration is none. *)
Lemma Create_existing_keeps_rc_witness :
  (Create env handle Background [] (initWorld running)).1.1
    = ("/tmp/kind-cluser-x-kubecfg100", None) /\
  KubernetesRestConfig (Create env handle Background [] (initWorld running)).1.2
    = None.
Proof.
  split; [reflexivity|].
  edestruct (Create_existing_keeps_rc env handle Background [] (initWorld running))
    as (_ & Hrc); [reflexivity..|].
  exact Hrc.
Defined.

(** The handle with a version of its own resolves first; the next one,
    with none, is resolved at that version. *)
Lemma kindVersion_is_shared_witness :
  version pinned <> EmptyString /\ version handle = EmptyString /\
  kindVersion (initWorld fresh) = "v0.17.0" /\
  added (findOrInstallKind env pinned (initWorld fresh)).2
        (findOrInstallKind env handle
           (findOrInstallKind env pinned (initWorld fresh)).2).2
    = [EvFindOrInstall "kind" "kind" "sigs.k8s.io/kind" "v0.20.0"].
Proof.
  assert (Hset : version pinned <> EmptyString) by discriminate.
  split; [exact Hset|]. split; [reflexivity|]. split; [reflexivity|].
  edestruct (kindVersion_is_shared env pinned handle (initWorld fresh))
    as (_ & _ & _ & Hadded & _); [exact Hset|reflexivity..|].
  exact Hadded.
Defined.

Lemma WaitForControlPlane_sequential_witness :
  WaitForControlPlane env handle Background client (initWorld fresh)
    = (None, (WaitForControlPlane env handle Background client (initWorld fresh)).2) /\
  added (initWorld fresh)
        (WaitForControlPlane env handle Background client (initWorld fresh)).2
    = [EvListPods "component in (etcd,kube-apiserver,kube-controller-manager,kube-scheduler)" (inl 4);
       EvListPods "k8s-app in (kindnet,kube-dns,kube-proxy)" (inl 3)] /\
  exists t1 t2,
    added (initWorld fresh)
          (WaitForControlPlane env handle Background client (initWorld fresh)).2
      = t1 ++ t2 /\
    ends_satisfied
      "component in (etcd,kube-apiserver,kube-controller-manager,kube-scheduler)" 4 t1.
Proof.
  split; [reflexivity|]. split; [reflexivity|].
  edestruct (WaitForControlPlane_sequential env handle Background client
               (initWorld fresh)) as (_ & _ & _ & t1 & t2 & Hadded & _ & _ & _ & Hend);
    [reflexivity..|].
  exists t1, t2. split; [exact Hadded|]. now apply Hend.
Defined.



End Runs.


(** * More of the handle's behaviour *)

Lemma ContainsByte_app (a b : string) (c : ascii) :
  ContainsByte (a +:+ b) c = ContainsByte a c || ContainsByte b c.
Proof.
  induction a as [|x a IH]; [reflexivity|].
  rewrite append_cons. cbn [ContainsByte]. rewrite IH. now rewrite orb_assoc.
Qed.

Lemma CutLast_absent (s : string) (c : ascii) :
  ContainsByte s c = false -> CutLast s c = None.
Proof.
  induction s as [|x s IH]; [reflexivity|].
  cbn [ContainsByte CutLast]. intros [Hx Hs]%orb_false_iff.
  now rewrite (IH Hs), Hx.
Qed.

Lemma HasPrefix_refl (s : string) : HasPrefix s s = true.
Proof. rewrite <- (append_nil_r s) at 1. apply HasPrefix_self_app. Qed.

Section Credentials.

Context {Ext Config : Type} (E : Env Ext Config).
Implicit Types (k : Cluster Config) (w : World Ext).

Lemma CreateTemp_loop_name retries prefix suffix w file w' :
  CreateTemp_loop E retries prefix suffix w = (inl file, w') ->
  exists n, file = prefix +:+ nextRandom E n +:+ suffix.
Proof.
  revert w. induction retries as [|r IH]; intros w; cbn [CreateTemp_loop];
    destruct (files w !! _).
  - discriminate.
  - destruct (openFault E _ _); [discriminate|]. intros [= <- _]. eauto.
  - apply IH.
  - destruct (openFault E _ _); [discriminate|]. intros [= <- _]. eauto.
Qed.

Lemma prefixAndSuffix_slash (pattern : string) :
  ContainsByte pattern "/"%char = true ->
  prefixAndSuffix pattern = inr errPatternHasSeparator.
Proof. unfold prefixAndSuffix. now intros ->. Qed.

Lemma kubeconfig_pattern_slash k :
  ContainsByte (name k) "/"%char = true ->
  ContainsByte ("kind-cluser-" +:+ name k +:+ "-kubecfg") "/"%char = true.
Proof.
  intros H. rewrite !ContainsByte_app, H. now rewrite orb_true_r.
Qed.

Lemma kubeconfig_pattern_star k :
  ContainsByte (name k) "*"%char = false ->
  ContainsByte ("kind-cluser-" +:+ name k +:+ "-kubecfg") "*"%char = false.
Proof. intros H. rewrite !ContainsByte_app, H. reflexivity. Qed.

(** X1.  A [getKubeconfig] that returns no error has written what the
    kubeconfig command printed, byte for byte and at least one byte, to a
    file that was not there before; every other file is as it was. *)
Theorem getKubeconfig_writes_output k w (res : string) k' w' :
  getKubeconfig E k w = ((res, None), k', w') ->
  let out :=
    Out (RunCommand E (path k +:+ " get kubeconfig --name " +:+ name k) (ext w)).1 in
  out <> EmptyString /\
  files w !! res = None /\
  files w' = <[res := out]> (files w) /\
  GetKubeconfig k' = res.
Proof.
  unfold getKubeconfig. cbv zeta.
  destruct (utils_RunCommand E _ w) as [p w1] eqn:Hrun.
  apply utils_RunCommand_frame in Hrun as (Hp & _ & Hf & _).
  rewrite <- Hp.
  destruct (Err p); [discriminate|]. destruct (OutErr p); [discriminate|].
  destruct (os_CreateTemp E _ _ w1) as [[file|e] w2] eqn:Hct; [|discriminate].
  apply os_CreateTemp_spec in Hct as (_ & _ & Hx & Hnone & Hf2).
  unfold io_Copy. destruct (copyFault E file (Out p) (ext w2)) as [[n e]|].
  { rewrite orb_true_r. discriminate. }
  cbn [isSome]. rewrite orb_false_r.
  destruct (Nat.eqb_spec (String.length (Out p)) 0) as [Hz|Hnz]; [discriminate|].
  intros [= <- <- <-]. split.
  { intros Hempty. apply Hnz. now rewrite Hempty. }
  split; [now rewrite <- Hf|]. split; [|reflexivity].
  cbn [files set_files]. rewrite Hf2, Hf. apply insert_insert_eq.
Qed.

(** X3.  The name of the credential file embeds the name of the cluster:
    for a name without a star, the path a successful [getKubeconfig]
    returns is the temporary directory joined with kind-cluser-, the
    name and -kubecfg, followed by the random suffix. *)
Theorem getKubeconfig_path_embeds_name k w (res : string) k' w' :
  getKubeconfig E k w = ((res, None), k', w') ->
  ContainsByte (name k) "*"%char = false ->
  exists n,
    res = joinPath (TempDir E) ("kind-cluser-" +:+ name k +:+ "-kubecfg")
            +:+ nextRandom E n.
Proof.
  unfold getKubeconfig. intros Hgk Hstar.
  destruct (utils_RunCommand E _ w) as [p w1].
  destruct (Err p); [discriminate|]. destruct (OutErr p); [discriminate|].
  destruct (os_CreateTemp E _ _ w1) as [[file|e] w2] eqn:Hct; [|discriminate].
  destruct (io_Copy E file (Out p) w2) as [[n cerr] w3].
  destruct (Nat.eqb n 0 || isSome cerr); [discriminate|].
  injection Hgk as <- _ _.
  unfold os_CreateTemp, prefixAndSuffix in Hct. cbn [String.eqb] in Hct.
  destruct (ContainsByte _ "/"%char); [discriminate|].
  rewrite (CutLast_absent _ _ (kubeconfig_pattern_star k Hstar)) in Hct.
  apply CreateTemp_loop_name in Hct as (m & ->).
  exists m. now rewrite append_nil_r.
Qed.

(** X4.  A cluster name with a slash in it never gets a credential file:
    [os.CreateTemp] refuses the pattern, so [getKubeconfig] returns an
    error for every world, writes no file and leaves the handle alone. *)
Theorem getKubeconfig_slash_in_name k w :
  ContainsByte (name k) "/"%char = true ->
  (getKubeconfig E k w).1.1.2 <> None /\
  (getKubeconfig E k w).1.1.1 = EmptyString /\
  (getKubeconfig E k w).1.2 = k /\
  files (getKubeconfig E k w).2 = files w.
Proof.
  intros Hslash. unfold getKubeconfig.
  destruct (utils_RunCommand E _ w) as [p w1] eqn:Hrun.
  apply utils_RunCommand_frame in Hrun as (_ & _ & Hf & _).
  destruct (Err p); [now cbn|]. destruct (OutErr p); [now cbn|].
  unfold os_CreateTemp.
  rewrite (prefixAndSuffix_slash _ (kubeconfig_pattern_slash k Hslash)).
  now cbn.
Qed.

End Credentials.

Section Creation.

Context {Ext Config : Type} (E : Env Ext Config).
Implicit Types (k : Cluster Config) (w : World Ext).

Lemma findOrInstallKind_image k w err k' w' :
  findOrInstallKind E k w = (err, k', w') -> image k' = image k.
Proof.
  unfold findOrInstallKind.
  destruct (utils_FindOrInstallGoBasedProvider E _ _ _ _ _) as [[p e] w1].
  intros [= _ <- _]. now destruct (String.eqb p EmptyString).
Qed.

(** What [getKubeconfig] keeps whatever it returns. *)
Lemma getKubeconfig_keeps k w res err k' w' :
  getKubeconfig E k w = ((res, err), k', w') ->
  image k' = image k /\
  (err <> None -> res = EmptyString).
Proof.
  unfold getKubeconfig.
  destruct (utils_RunCommand E _ w) as [p w1].
  destruct (Err p); [now intros [= <- <- <- <-]|].
  destruct (OutErr p); [now intros [= <- <- <- <-]|].
  destruct (os_CreateTemp E _ _ w1) as [[file|e] w2];
    [|now intros [= <- <- <- <-]].
  destruct (io_Copy E file (Out p) w2) as [[n cerr] w3].
  destruct (Nat.eqb n 0 || isSome cerr); intros [= <- <- <- <-];
    (split; [reflexivity|]); [reflexivity|].
  intros Hne. now contradiction Hne.
Qed.

(** The branches of [Create], read back from what it returns. *)
Lemma Create_cases k (ctx : Context) (args : list string) w
    (res : string) (err : option error) k' w' e0 k1 w1 :
  Create E k ctx args w = ((res, err), k', w') ->
  findOrInstallKind E k w = (e0, k1, w1) ->
  (exists e, e0 = Some e /\ res = EmptyString /\ err = Some e /\ k' = k1 /\ w' = w1)
  \/ (e0 = None /\ exists out w2,
        clusterExists E k1 (name k1) w1 = ((out, true), w2) /\
        getKubeconfig E k1 w2 = ((res, err), k', w'))
  \/ (e0 = None /\ exists out w2 p w3,
        clusterExists E k1 (name k1) w1 = ((out, false), w2) /\
        utils_RunCommand E (create_command k1 args) w2 = (p, w3) /\
        ((exists e, Err p = Some e /\ res = EmptyString /\
                    err = Some (ErrCreateFailed e (Result p) (Out p)) /\
                    k' = k1 /\ w' = w3)
         \/ (Err p = None /\ exists out2 w4,
               clusterExists E k1 (name k1) w3 = ((out2, false), w4) /\
               res = EmptyString /\
               err = Some (ErrStillNotInList (name k1) out2) /\
               k' = k1 /\ w' = w4)
         \/ (Err p = None /\ exists out2 w4 kConfig e2 k2,
               clusterExists E k1 (name k1) w3 = ((out2, true), w4) /\
               getKubeconfig E k1 w4 = ((kConfig, e2), k2, w') /\
               ((exists e, e2 = Some e /\ res = EmptyString /\ err = Some e /\ k' = k2)
                \/ (e2 = None /\ res = kConfig /\
                    initKubernetesAccessClients E k2 w' = (err, k')))))).
Proof.
  unfold Create. intros HC Hfind. rewrite Hfind in HC.
  destruct e0 as [e|].
  { injection HC as <- <- <- <-. left. exists e. auto. }
  right.
  destruct (clusterExists E k1 (name k1) w1) as [[out ok] w2] eqn:Hce.
  destruct ok.
  { left. split; [reflexivity|]. now exists out, w2. }
  right. split; [reflexivity|].
  destruct (utils_RunCommand E (create_command k1 args) w2) as [p w3] eqn:Hrun.
  exists out, w2, p, w3. split; [reflexivity|]. split; [exact Hrun|].
  destruct (Err p) as [e|].
  { injection HC as <- <- <- <-. left. exists e. auto. }
  right.
  destruct (clusterExists E k1 (name k1) w3) as [[out2 ok2] w4] eqn:Hce2.
  destruct ok2; cbn [negb] in HC.
  2:{ injection HC as <- <- <- <-. left. split; [reflexivity|].
      exists out2, w4. auto. }
  right. split; [reflexivity|].
  destruct (getKubeconfig E k1 w4) as [[[kConfig e2] k2] w5] eqn:Hgk.
  destruct e2 as [e|].
  { injection HC as <- <- <- <-. exists out2, w4, kConfig, (Some e), k2.
    split; [reflexivity|]. split; [exact Hgk|]. left. exists e. auto. }
  destruct (initKubernetesAccessClients E k2 w5) as [e3 k3] eqn:Hinit.
  injection HC as <- <- <- <-. exists out2, w4, kConfig, None, k2.
  split; [reflexivity|]. split; [exact Hgk|]. right. auto.
Qed.

Lemma create_command_prefix (k : Cluster Config) (args : list string) :
  HasPrefix (create_command k args)
            (path k +:+ " create cluster --name " +:+ name k) = true.
Proof. exact (create_is_create k args). Qed.

Lemma create_command_not_kubeconfig (k : Cluster Config) (args : list string) :
  HasPrefix (create_command k args)
            (path k +:+ " get kubeconfig --name " +:+ name k) = false.
Proof. exact (create_not_kubeconfig k args). Qed.

Lemma kubeconfig_command_not_create (k : Cluster Config) :
  HasPrefix (path k +:+ " get kubeconfig --name " +:+ name k)
            (path k +:+ " create cluster --name " +:+ name k) = false.
Proof. exact (kubeconfig_not_create k). Qed.

Ltac count_calls :=
  unfold count_events;
  cbn [List.filter create_invocation kubeconfig_invocation];
  rewrite ?create_command_prefix, ?create_command_not_kubeconfig,
          ?kubeconfig_command_not_create, ?HasPrefix_refl;
  cbn [List.filter List.length]; lia.

(** The calls of a [Create], branch by branch. *)
Lemma Create_trace k (ctx : Context) (args : list string) w
    (res : string) (err : option error) k' w' e0 k1 w1 :
  Create E k ctx args w = ((res, err), k', w') ->
  findOrInstallKind E k w = (e0, k1, w1) ->
  create_calls (EvFindOrInstall (path k) "kind" "sigs.k8s.io/kind" (kindVersion w1))
               (EvFetchCommandOutput (path k1 +:+ " get clusters"))
               (EvRunCommand (create_command k1 args))
               (EvRunCommand (path k1 +:+ " get kubeconfig --name " +:+ name k1))
               (added w w').
Proof.
  intros HC Hfind.
  pose proof (findOrInstallKind_frame E _ _ _ _ _ Hfind) as (_ & Ht1 & _).
  destruct (Create_cases _ _ _ _ _ _ _ _ _ _ _ HC Hfind)
    as [(e & _ & _ & _ & _ & ->)
       |[(_ & out & w2 & Hce & Hgk)
        |(_ & out & w2 & p & w3 & Hce & Hrun & Hrest)]].
  - left. now apply added_app.
  - right; left.
    apply clusterExists_frame in Hce as (_ & _ & Ht2 & _).
    apply getKubeconfig_spec in Hgk as (Ht3 & _).
    apply added_app. rewrite Ht3, Ht2, Ht1. now rewrite <- !app_assoc.
  - apply clusterExists_frame in Hce as (_ & _ & Ht2 & _).
    apply utils_RunCommand_frame in Hrun as (_ & Ht3 & _).
    destruct Hrest
      as [(e & _ & _ & _ & _ & ->)
         |[(_ & out2 & w4 & Hce2 & _ & _ & _ & ->)
          |(_ & out2 & w4 & kConfig & e2 & k2 & Hce2 & Hgk & _)]].
    + right; right; left.
      apply added_app. rewrite Ht3, Ht2, Ht1. now rewrite <- !app_assoc.
    + right; right; right; left.
      apply clusterExists_frame in Hce2 as (_ & _ & Ht4 & _).
      apply added_app. rewrite Ht4, Ht3, Ht2, Ht1. now rewrite <- !app_assoc.
    + right; right; right; right.
      apply clusterExists_frame in Hce2 as (_ & _ & Ht4 & _).
      apply getKubeconfig_spec in Hgk as (Ht5 & _).
      apply added_app. rewrite Ht5, Ht4, Ht3, Ht2, Ht1. now rewrite <- !app_assoc.
Qed.

(** X5.  Whatever the tool does, the calls a [Create] makes are one of
    five sequences: the installer alone; the installer, the listing and
    the kubeconfig command; or the installer, the listing and the create
    command, followed by nothing, by the listing, or by the listing and
    the kubeconfig command.  So the create command and the kubeconfig
    command each run at most once: nothing is retried. *)
Theorem Create_call_sequences k (ctx : Context) (args : list string) w :
  let k1 := (findOrInstallKind E k w).1.2 in
  let w1 := (findOrInstallKind E k w).2 in
  let t := added w (Create E k ctx args w).2 in
  create_calls (EvFindOrInstall (path k) "kind" "sigs.k8s.io/kind" (kindVersion w1))
               (EvFetchCommandOutput (path k1 +:+ " get clusters"))
               (EvRunCommand (create_command k1 args))
               (EvRunCommand (path k1 +:+ " get kubeconfig --name " +:+ name k1))
               t /\
  count_events (create_invocation k1) t <= 1 /\
  count_events (kubeconfig_invocation k1) t <= 1.
Proof.
  destruct (Create E k ctx args w) as [[[res err] k'] w'] eqn:HC.
  destruct (findOrInstallKind E k w) as [[e0 k1] w1] eqn:Hfind.
  cbn [fst snd]. pose proof (Create_trace _ _ _ _ _ _ _ _ _ _ _ HC Hfind) as Hcalls.
  split; [exact Hcalls|].
  destruct Hcalls as [->|[->|[->|[->| ->]]]]; split; count_calls.
Qed.

Lemma initKubernetesAccessClients_keeps k w err k' :
  initKubernetesAccessClients E k w = (err, k') ->
  version k' = version k /\ image k' = image k /\
  (err <> None -> k' = k).
Proof.
  unfold initKubernetesAccessClients.
  destruct (conf_New E (kubecfgFile k) (files w)) as [cfg [e|]];
    intros [= <- <-]; repeat split; auto. intros H. now contradiction H.
Qed.

(** X6.  [Create] never changes who the handle is: the name, the version
    and the image of the handle are what they were, in every branch, and
    so is the kubectl context derived from the name. *)
Theorem Create_keeps_identity k (ctx : Context) (args : list string) w :
  name (Create E k ctx args w).1.2 = name k /\
  version (Create E k ctx args w).1.2 = version k /\
  image (Create E k ctx args w).1.2 = image k /\
  GetKubectlContext (Create E k ctx args w).1.2 = GetKubectlContext k.
Proof.
  destruct (Create E k ctx args w) as [[[res err] k'] w'] eqn:HC.
  destruct (findOrInstallKind E k w) as [[e0 k1] w1] eqn:Hfind.
  cbn [fst snd]. unfold GetKubectlContext.
  pose proof (findOrInstallKind_frame E _ _ _ _ _ Hfind)
    as (_ & _ & _ & _ & Hn & _ & Hv & _).
  pose proof (findOrInstallKind_image _ _ _ _ _ Hfind) as Hi.
  assert (H : name k' = name k1 /\ version k' = version k1 /\ image k' = image k1).
  { destruct (Create_cases _ _ _ _ _ _ _ _ _ _ _ HC Hfind)
      as [(e & _ & _ & _ & -> & _)
         |[(_ & out & w2 & _ & Hgk)
          |(_ & out & w2 & p & w3 & _ & _ & Hrest)]]; [auto| |].
    - pose proof (getKubeconfig_keeps _ _ _ _ _ _ Hgk) as (Hi2 & _).
      apply getKubeconfig_spec in Hgk as (_ & _ & _ & Hn2 & Hv2 & _). auto.
    - destruct Hrest
        as [(e & _ & _ & _ & -> & _)
           |[(_ & out2 & w4 & _ & _ & _ & -> & _)
            |(_ & out2 & w4 & kConfig & e2 & k2 & _ & Hgk & Hlast)]]; [auto..|].
      pose proof (getKubeconfig_keeps _ _ _ _ _ _ Hgk) as (Hi2 & _).
      apply getKubeconfig_spec in Hgk as (_ & _ & _ & Hn2 & Hv2 & _).
      destruct Hlast as [(e & _ & _ & _ & ->)|(_ & _ & Hinit)]; [auto|].
      pose proof (initKubernetesAccessClients_keeps _ _ _ _ Hinit) as (Hv3 & Hi3 & _).
      apply initKubernetesAccessClients_frame in Hinit as (_ & Hn3 & _).
      repeat split; congruence. }
  destruct H as (Hn' & Hv' & Hi'). repeat split; congruence.
Qed.

(** X8.  A [Create] that returns an error leaves the rest configuration
    of the handle as it was; and when it returns a path along with the
    error, the error is that of [conf.New] on the credential file the
    handle now points at, which is on disk. *)
Theorem Create_error_keeps_rc k (ctx : Context) (args : list string) w
    (res : string) (e : error) k' w' :
  Create E k ctx args w = ((res, Some e), k', w') ->
  KubernetesRestConfig k' = KubernetesRestConfig k /\
  (res <> EmptyString ->
   (conf_New E res (files w')).2 = Some e /\
   GetKubeconfig k' = res /\ onDisk res w').
Proof.
  intros HC. unfold KubernetesRestConfig, GetKubeconfig.
  destruct (findOrInstallKind E k w) as [[e0 k1] w1] eqn:Hfind.
  pose proof (findOrInstallKind_frame E _ _ _ _ _ Hfind)
    as (_ & _ & _ & _ & _ & _ & _ & Hrc).
  destruct (Create_cases _ _ _ _ _ _ _ _ _ _ _ HC Hfind)
    as [(e' & _ & -> & _ & -> & _)
       |[(_ & out & w2 & _ & Hgk)
        |(_ & out & w2 & p & w3 & _ & _ & Hrest)]].
  - split; [exact Hrc|]. intros H. now contradiction H.
  - pose proof (getKubeconfig_keeps _ _ _ _ _ _ Hgk) as (_ & Hres).
    apply getKubeconfig_spec in Hgk as (_ & _ & _ & _ & _ & Hrc2 & _).
    split; [congruence|]. intros H. contradiction H. now apply Hres.
  - destruct Hrest
      as [(e' & _ & -> & _ & -> & _)
         |[(_ & out2 & w4 & _ & -> & _ & -> & _)
          |(_ & out2 & w4 & kConfig & e2 & k2 & _ & Hgk & Hlast)]].
    + split; [exact Hrc|]. intros H. now contradiction H.
    + split; [exact Hrc|]. intros H. now contradiction H.
    + pose proof (getKubeconfig_spec E _ _ _ _ _ _ Hgk)
        as (_ & _ & _ & _ & _ & Hrc2 & Hok).
      destruct Hlast as [(e' & _ & -> & _ & ->)|(-> & -> & Hinit)].
      * split; [congruence|]. intros H. now contradiction H.
      * destruct (Hok eq_refl) as (Hfile & _ & c & _ & Hfs).
        pose proof (initKubernetesAccessClients_keeps _ _ _ _ Hinit)
          as (_ & _ & Hsame).
        assert (k' = k2) as -> by (apply Hsame; discriminate).
        split; [congruence|]. intros Hne.
        unfold initKubernetesAccessClients in Hinit. rewrite Hfile in Hinit.
        destruct (conf_New E kConfig (files w')) as [cfg [e'|]];
          [|discriminate].
        injection Hinit as ->. repeat split; auto.
        rewrite Hfs, lookup_insert_eq. eauto.
Qed.

Lemma clusterExists_range_newline (out n : string) :
  ContainsByte n LF = true -> clusterExists_range (Split out LF) n = false.
Proof.
  intros Hn. destruct (clusterExists_range (Split out LF) n) eqn:Hex;
    [|reflexivity].
  apply clusterExists_range_In in Hex.
  pose proof (Split_pieces_free out LF) as Hfree.
  rewrite List.Forall_forall in Hfree. apply (Hfree n) in Hex. congruence.
Qed.

(** X9.  A name with a line feed in it is never found in a listing, so a
    [Create] on such a handle never returns without an error: either the
    tool cannot be resolved, or the create command fails, or the cluster
    is reported as still not in the list.  No kubeconfig command is run
    and no file is written. *)
Theorem Create_newline_in_name k (ctx : Context) (args : list string) w :
  ContainsByte (name k) LF = true ->
  (Create E k ctx args w).1.1.2 <> None /\
  (Create E k ctx args w).1.1.1 = EmptyString /\
  files (Create E k ctx args w).2 = files w /\
  count_events (kubeconfig_invocation (findOrInstallKind E k w).1.2)
    (added w (Create E k ctx args w).2) = 0.
Proof.
  intros Hnl.
  destruct (Create E k ctx args w) as [[[res err] k'] w'] eqn:HC.
  destruct (findOrInstallKind E k w) as [[e0 k1] w1] eqn:Hfind.
  cbn [fst snd].
  pose proof (findOrInstallKind_frame E _ _ _ _ _ Hfind)
    as (_ & Ht1 & Hf1 & _ & Hn & _).
  assert (Hno : forall out ww w2,
             clusterExists E k1 (name k1) ww = ((out, true), w2) -> False).
  { intros out ww w2 Hce. apply clusterExists_frame in Hce as (_ & Hok & _).
    rewrite clusterExists_range_newline in Hok; [discriminate|congruence]. }
  destruct (Create_cases _ _ _ _ _ _ _ _ _ _ _ HC Hfind)
    as [(e & _ & -> & -> & _ & ->)
       |[(_ & out & w2 & Hce & _)
        |(_ & out & w2 & p & w3 & Hce & Hrun & Hrest)]].
  - repeat split; [discriminate|exact Hf1|].
    rewrite (added_app w w1 _ Ht1). count_calls.
  - destruct (Hno _ _ _ Hce).
  - apply clusterExists_frame in Hce as (_ & _ & Ht2 & Hf2 & _).
    apply utils_RunCommand_frame in Hrun as (_ & Ht3 & Hf3 & _).
    destruct Hrest
      as [(e & _ & -> & -> & _ & ->)
         |[(_ & out2 & w4 & Hce2 & -> & -> & _ & ->)
          |(_ & out2 & w4 & kConfig & e2 & k2 & Hce2 & _)]].
    + repeat split; [discriminate|congruence|].
      rewrite (added_app w w3
                 [EvFindOrInstall (path k) "kind" "sigs.k8s.io/kind" (kindVersion w1);
                  EvFetchCommandOutput (path k1 +:+ " get clusters");
                  EvRunCommand (create_command k1 args)]); [count_calls|].
      rewrite Ht3, Ht2, Ht1. now rewrite <- !app_assoc.
    + apply clusterExists_frame in Hce2 as (_ & _ & Ht4 & Hf4 & _).
      repeat split; [discriminate|congruence|].
      rewrite (added_app w w4
                 [EvFindOrInstall (path k) "kind" "sigs.k8s.io/kind" (kindVersion w1);
                  EvFetchCommandOutput (path k1 +:+ " get clusters");
                  EvRunCommand (create_command k1 args);
                  EvFetchCommandOutput (path k1 +:+ " get clusters")]);
        [count_calls|].
      rewrite Ht4, Ht3, Ht2, Ht1. now rewrite <- !app_assoc.
    + destruct (Hno _ _ _ Hce2).
Qed.

(** X10.  A name with a slash in it cannot have a credential file, so a
    [Create] on such a handle never returns without an error either, and
    it writes no file. *)
Theorem Create_slash_in_name k (ctx : Context) (args : list string) w :
  ContainsByte (name k) "/"%char = true ->
  (Create E k ctx args w).1.1.2 <> None /\
  (Create E k ctx args w).1.1.1 = EmptyString /\
  files (Create E k ctx args w).2 = files w /\
  GetKubeconfig (Create E k ctx args w).1.2 = GetKubeconfig k.
Proof.
  intros Hslash. unfold GetKubeconfig.
  destruct (Create E k ctx args w) as [[[res err] k'] w'] eqn:HC.
  destruct (findOrInstallKind E k w) as [[e0 k1] w1] eqn:Hfind.
  cbn [fst snd].
  pose proof (findOrInstallKind_frame E _ _ _ _ _ Hfind)
    as (_ & _ & Hf1 & _ & Hn & Hkf & _).
  assert (Hslash1 : ContainsByte (name k1) "/"%char = true) by congruence.
  assert (Hgk : forall ww r e kk w'',
             getKubeconfig E k1 ww = ((r, e), kk, w'') ->
             e <> None /\ r = EmptyString /\ kk = k1 /\ files w'' = files ww).
  { intros ww r e kk w'' H.
    pose proof (getKubeconfig_slash_in_name E k1 ww Hslash1) as Hs.
    rewrite H in Hs. exact Hs. }
  destruct (Create_cases _ _ _ _ _ _ _ _ _ _ _ HC Hfind)
    as [(e & _ & -> & -> & -> & ->)
       |[(_ & out & w2 & Hce & Hgk1)
        |(_ & out & w2 & p & w3 & Hce & Hrun & Hrest)]].
  - repeat split; [discriminate|exact Hf1|exact Hkf].
  - apply clusterExists_frame in Hce as (_ & _ & _ & Hf2 & _).
    apply Hgk in Hgk1 as (He & -> & -> & Hf3).
    repeat split; [exact He|congruence|exact Hkf].
  - apply clusterExists_frame in Hce as (_ & _ & _ & Hf2 & _).
    apply utils_RunCommand_frame in Hrun as (_ & _ & Hf3 & _).
    destruct Hrest
      as [(e & _ & -> & -> & -> & ->)
         |[(_ & out2 & w4 & Hce2 & -> & -> & -> & ->)
          |(_ & out2 & w4 & kConfig & e2 & k2 & Hce2 & Hgk1 & Hlast)]].
    + repeat split; [discriminate|congruence|exact Hkf].
    + apply clusterExists_frame in Hce2 as (_ & _ & _ & Hf4 & _).
      repeat split; [discriminate|congruence|exact Hkf].
    + apply clusterExists_frame in Hce2 as (_ & _ & _ & Hf4 & _).
      apply Hgk in Hgk1 as (He & -> & -> & Hf5).
      destruct Hlast as [(e & -> & -> & -> & ->)|(-> & _)];
        [|now contradiction He].
      repeat split; [discriminate|congruence|exact Hkf].
Qed.

(** X11.  What a [Create] leaves in the default version: the version of
    the handle if it has one, and what was there if it has none, in every
    branch and whether or not the call succeeds. *)
Theorem Create_kindVersion k (ctx : Context) (args : list string) w :
  kindVersion (Create E k ctx args w).2 =
    (if String.eqb (version k) EmptyString then kindVersion w else version k).
Proof.
  destruct (Create E k ctx args w) as [[[res err] k'] w'] eqn:HC.
  destruct (findOrInstallKind E k w) as [[e0 k1] w1] eqn:Hfind.
  cbn [snd].
  pose proof (findOrInstallKind_frame E _ _ _ _ _ Hfind) as (Hv1 & _).
  rewrite <- Hv1.
  destruct (Create_cases _ _ _ _ _ _ _ _ _ _ _ HC Hfind)
    as [(e & _ & _ & _ & _ & ->)
       |[(_ & out & w2 & Hce & Hgk)
        |(_ & out & w2 & p & w3 & Hce & Hrun & Hrest)]].
  - reflexivity.
  - apply clusterExists_frame in Hce as (_ & _ & _ & _ & _ & Hv2).
    apply getKubeconfig_spec in Hgk as (_ & Hv3 & _). congruence.
  - apply clusterExists_frame in Hce as (_ & _ & _ & _ & _ & Hv2).
    apply utils_RunCommand_frame in Hrun as (_ & _ & _ & _ & Hv3).
    destruct Hrest
      as [(e & _ & _ & _ & _ & ->)
         |[(_ & out2 & w4 & Hce2 & _ & _ & _ & ->)
          |(_ & out2 & w4 & kConfig & e2 & k2 & Hce2 & Hgk & _)]].
    + congruence.
    + apply clusterExists_frame in Hce2 as (_ & _ & _ & _ & _ & Hv4). congruence.
    + apply clusterExists_frame in Hce2 as (_ & _ & _ & _ & _ & Hv4).
      apply getKubeconfig_spec in Hgk as (_ & Hv5 & _). congruence.
Qed.

Lemma joinPath_not_empty (dir file : string) : joinPath dir file <> EmptyString.
Proof.
  unfold joinPath. destruct dir as [|a dir]; [discriminate|].
  destruct (LastByte (String a dir)) as [c|]; [destruct (Ascii.eqb c "/")|];
    rewrite append_cons; discriminate.
Qed.

Lemma os_CreateTemp_not_empty (dir pattern : string) w (file : string) w' :
  os_CreateTemp E dir pattern w = (inl file, w') -> file <> EmptyString.
Proof.
  unfold os_CreateTemp. destruct (prefixAndSuffix pattern) as [[pre suf]|e];
    [|discriminate].
  intros H. apply CreateTemp_loop_name in H as (n & ->).
  pose proof (joinPath_not_empty
                (if String.eqb dir EmptyString then TempDir E else dir) pre) as Hj.
  destruct (joinPath _ pre); [now contradiction Hj|].
  rewrite append_cons. discriminate.
Qed.

Lemma getKubeconfig_path_not_empty k w (res : string) k' w' :
  getKubeconfig E k w = ((res, None), k', w') -> res <> EmptyString.
Proof.
  unfold getKubeconfig.
  destruct (utils_RunCommand E _ w) as [p w1].
  destruct (Err p); [discriminate|]. destruct (OutErr p); [discriminate|].
  destruct (os_CreateTemp E _ _ w1) as [[file|e] w2] eqn:Hct; [|discriminate].
  apply os_CreateTemp_not_empty in Hct.
  destruct (io_Copy E file (Out p) w2) as [[n cerr] w3].
  destruct (Nat.eqb n 0 || isSome cerr); [discriminate|].
  now intros [= <- _ _].
Qed.

(** X12.  A [Create] that finds the cluster missing and returns no error
    has run the create command once and the kubeconfig command once, in
    the five calls of the long sequence; the handle points at the path
    returned, and its rest configuration is what [conf.New] made of that
    file. *)
Theorem Create_fresh_success k (ctx : Context) (args : list string) w
    k1 w1 (out : string) w2 (res : string) k' w' :
  findOrInstallKind E k w = (None, k1, w1) ->
  clusterExists E k1 (name k1) w1 = ((out, false), w2) ->
  Create E k ctx args w = ((res, None), k', w') ->
  added w w' =
    [EvFindOrInstall (path k) "kind" "sigs.k8s.io/kind" (kindVersion w1);
     EvFetchCommandOutput (path k1 +:+ " get clusters");
     EvRunCommand (create_command k1 args);
     EvFetchCommandOutput (path k1 +:+ " get clusters");
     EvRunCommand (path k1 +:+ " get kubeconfig --name " +:+ name k1)] /\
  GetKubeconfig k' = res /\ onDisk res w' /\ res <> EmptyString /\
  conf_New E res (files w') = (KubernetesRestConfig k', None).
Proof.
  intros Hfind Hce HC. unfold GetKubeconfig, KubernetesRestConfig.
  pose proof (findOrInstallKind_frame E _ _ _ _ _ Hfind) as (_ & Ht1 & _).
  destruct (Create_cases _ _ _ _ _ _ _ _ _ _ _ HC Hfind)
    as [(e & He & _)
       |[(_ & out' & w2' & Hce' & _)
        |(_ & out' & w2' & p & w3 & Hce' & Hrun & Hrest)]];
    [discriminate|congruence|].
  rewrite Hce in Hce'. injection Hce' as <- <-.
  apply clusterExists_frame in Hce as (_ & _ & Ht2 & _).
  apply utils_RunCommand_frame in Hrun as (_ & Ht3 & _).
  destruct Hrest
    as [(e & _ & _ & He & _)
       |[(_ & out2 & w4 & _ & _ & He & _)
        |(_ & out2 & w4 & kConfig & e2 & k2 & Hce2 & Hgk & Hlast)]];
    [discriminate..|].
  apply clusterExists_frame in Hce2 as (_ & _ & Ht4 & _).
  destruct Hlast as [(e & _ & _ & He & _)|(-> & -> & Hinit)]; [discriminate|].
  pose proof (getKubeconfig_writes_output E _ _ _ _ _ Hgk) as (_ & Hnone & Hfs & Hkf).
  pose proof Hgk as Hgk0.
  apply getKubeconfig_spec in Hgk as (Ht5 & _).
  unfold GetKubeconfig in Hkf.
  pose proof (initKubernetesAccessClients_frame E _ _ _ _ Hinit) as (Hkf' & _).
  assert (Hdisk : is_Some (files w' !! kConfig)).
  { rewrite Hfs, lookup_insert_eq. eauto. }
  split.
  { apply added_app. rewrite Ht5, Ht4, Ht3, Ht2, Ht1. now rewrite <- !app_assoc. }
  pose proof (getKubeconfig_path_not_empty _ _ _ _ _ Hgk0) as Hne.
  split; [congruence|]. split; [now split|]. split; [exact Hne|].
  unfold initKubernetesAccessClients in Hinit. rewrite Hkf in Hinit.
  destruct (conf_New E kConfig (files w')) as [cfg [e|]]; [discriminate|].
  now injection Hinit as <-.
Qed.

(** X14.  When the cluster is already listed, the arguments of [Create]
    play no part: any two argument lists give the same result, so
    [CreateWithConfig] then returns what [Create] without arguments
    returns, whatever the configuration file and the image. *)
Theorem CreateWithConfig_listed k (ctx : Context) (kindConfigFile : string) w
    k1 w1 (out : string) w2 :
  findOrInstallKind E k w = (None, k1, w1) ->
  clusterExists E k1 (name k1) w1 = ((out, true), w2) ->
  (forall args args', Create E k ctx args w = Create E k ctx args' w) /\
  CreateWithConfig E k ctx kindConfigFile w = Create E k ctx [] w.
Proof.
  intros Hfind Hce.
  assert (H : forall args args', Create E k ctx args w = Create E k ctx args' w).
  { intros args args'. unfold Create. now rewrite Hfind, Hce. }
  split; [exact H|]. unfold CreateWithConfig. apply H.
Qed.

Lemma create_command_config_image k (f i : string) :
  create_command k ([] ++ ["--config"; f] ++ ["--image"; i])
  = path k +:+ " create cluster --name " +:+ name k
      +:+ " --config " +:+ f +:+ " --image " +:+ i.
Proof.
  unfold create_command. cbn [app]. rewrite !append_assoc. reflexivity.
Qed.

(** X15.  When the cluster is not listed, [CreateWithConfig] with a
    configuration file, on a handle with an image, runs the create
    command with the name, then the config flag and the file, then the
    image flag and the image. *)
Theorem CreateWithConfig_command k (ctx : Context) (kindConfigFile : string) w
    k1 w1 (out : string) w2 :
  findOrInstallKind E k w = (None, k1, w1) ->
  clusterExists E k1 (name k1) w1 = ((out, false), w2) ->
  kindConfigFile <> EmptyString ->
  image k <> EmptyString ->
  exists rest,
    added w (CreateWithConfig E k ctx kindConfigFile w).2 =
      [EvFindOrInstall (path k) "kind" "sigs.k8s.io/kind" (kindVersion w1);
       EvFetchCommandOutput (path k1 +:+ " get clusters");
       EvRunCommand (path k1 +:+ " create cluster --name " +:+ name k1
                       +:+ " --config " +:+ kindConfigFile
                       +:+ " --image " +:+ image k)] ++ rest.
Proof.
  intros Hfind Hce Hf Hi. unfold CreateWithConfig.
  apply String.eqb_neq in Hf, Hi. rewrite Hf, Hi.
  rewrite <- (create_command_config_image k1).
  rewrite <- (findOrInstallKind_image _ _ _ _ _ Hfind).
  change (([] ++ ["--config"; kindConfigFile]) ++ ["--image"; image k1])
    with ([] ++ ["--config"; kindConfigFile] ++ ["--image"; image k1]).
  set (args := [] ++ ["--config"; kindConfigFile] ++ ["--image"; image k1]).
  destruct (Create E k ctx args w) as [[[res err] k'] w'] eqn:HC.
  cbn [snd].
  pose proof (findOrInstallKind_frame E _ _ _ _ _ Hfind) as (_ & Ht1 & _).
  destruct (Create_cases _ _ _ _ _ _ _ _ _ _ _ HC Hfind)
    as [(e & He & _)
       |[(_ & out' & w2' & Hce' & _)
        |(_ & out' & w2' & p & w3 & Hce' & Hrun & Hrest)]];
    [discriminate|congruence|].
  apply clusterExists_frame in Hce' as (_ & _ & Ht2 & _).
  apply utils_RunCommand_frame in Hrun as (_ & Ht3 & _).
  destruct Hrest
    as [(e & _ & _ & _ & _ & ->)
       |[(_ & out2 & w4 & Hce2 & _ & _ & _ & ->)
        |(_ & out2 & w4 & kConfig & e2 & k2 & Hce2 & Hgk & _)]].
  - exists []. apply added_app. rewrite Ht3, Ht2, Ht1. now rewrite <- !app_assoc.
  - apply clusterExists_frame in Hce2 as (_ & _ & Ht4 & _).
    eexists. apply added_app. rewrite Ht4, Ht3, Ht2, Ht1.
    rewrite <- !app_assoc. reflexivity.
  - apply clusterExists_frame in Hce2 as (_ & _ & Ht4 & _).
    apply getKubeconfig_spec in Hgk as (Ht5 & _).
    eexists. apply added_app. rewrite Ht5, Ht4, Ht3, Ht2, Ht1.
    rewrite <- !app_assoc. reflexivity.
Qed.

End Creation.


Section Configuration.

Context {Ext Config : Type} (E : Env Ext Config).
Implicit Types (k : Cluster Config) (w : World Ext).

Lemma WithOpts_app (opts more : list (ClusterOpts (Config:=Config))) k :
  WithOpts (opts ++ more) k = WithOpts more (WithOpts opts k).
Proof.
  revert k. induction opts as [|o opts IH]; intros k; [reflexivity|].
  cbn [app WithOpts]. apply IH.
Qed.

(** X21.  Options are applied in the order they are given: applying two
    lists one after the other is applying their concatenation, so the
    last option that sets the path, or the image, is the one that counts;
    the method [WithPath] is the option of the same name applied alone.
    After [SetDefaults] the path is never empty, a path that was set is
    kept, and a second [SetDefaults] changes nothing. *)
Theorem configuration_in_order
    (opts more : list (ClusterOpts (Config:=Config))) (p : string) k :
  WithOpts (opts ++ more) k = WithOpts more (WithOpts opts k) /\
  path (WithOpts (opts ++ [optWithPath p]) k) = p /\
  image (WithOpts (opts ++ [optWithImage p]) k) = p /\
  WithOpts [optWithPath p] k = WithPath p k /\
  path (SetDefaults k) <> EmptyString /\
  (path k <> EmptyString -> SetDefaults k = k) /\
  SetDefaults (SetDefaults k) = SetDefaults k.
Proof.
  split; [apply WithOpts_app|].
  split; [now rewrite WithOpts_app|]. split; [now rewrite WithOpts_app|].
  split; [reflexivity|]. unfold SetDefaults.
  destruct (String.eqb_spec (path k) EmptyString) as [Hempty|Hset].
  - repeat split; [discriminate|congruence].
  - apply String.eqb_neq in Hset as Hset'. rewrite Hset'.
    repeat split; assumption.
Qed.

End Configuration.

(** ** More runs against the simulated tools *)

Section MoreRuns.

Import Sim Scenarios.

Lemma getKubeconfig_writes_output_witness :
  getKubeconfig env handle (initWorld running)
    = (("/tmp/kind-cluser-x-kubecfg100", None),
       (getKubeconfig env handle (initWorld running)).1.2,
       (getKubeconfig env handle (initWorld running)).2) /\
  files (getKubeconfig env handle (initWorld running)).2
    = <["/tmp/kind-cluser-x-kubecfg100" := "apiVersion: v1"]> ∅.
Proof.
  assert (H : getKubeconfig env handle (initWorld running)
    = (("/tmp/kind-cluser-x-kubecfg100", None),
       (getKubeconfig env handle (initWorld running)).1.2,
       (getKubeconfig env handle (initWorld running)).2)) by reflexivity.
  split; [exact H|].
  now destruct (getKubeconfig_writes_output env _ _ _ _ _ H) as (_ & _ & Hfs & _).
Defined.

Lemma getKubeconfig_path_embeds_name_witness :
  exists n, (getKubeconfig env handle (initWorld running)).1.1.1
            = "/tmp/kind-cluser-x-kubecfg" +:+ suffix n.
Proof.
  eapply (getKubeconfig_path_embeds_name env handle (initWorld running));
    reflexivity.
Defined.

Lemma getKubeconfig_slash_in_name_witness :
  ContainsByte (name slashed) "/"%char = true /\
  (getKubeconfig env slashed (initWorld odd)).1.1.2 <> None /\
  files (getKubeconfig env slashed (initWorld odd)).2 = ∅.
Proof.
  split; [reflexivity|].
  destruct (getKubeconfig_slash_in_name env slashed (initWorld odd) eq_refl)
    as (Herr & _ & _ & Hf).
  split; [exact Herr|exact Hf].
Defined.

Lemma Create_error_keeps_rc_witness :
  (Create unparsable handle Background [] (initWorld fresh)).1.1
    = ("/tmp/kind-cluser-x-kubecfg100", Some (ForeignError "invalid configuration")) /\
  KubernetesRestConfig (Create unparsable handle Background [] (initWorld fresh)).1.2
    = None /\
  onDisk "/tmp/kind-cluser-x-kubecfg100"
         (Create unparsable handle Background [] (initWorld fresh)).2.
Proof.
  assert (H : Create unparsable handle Background [] (initWorld fresh)
    = (("/tmp/kind-cluser-x-kubecfg100", Some (ForeignError "invalid configuration")),
       (Create unparsable handle Background [] (initWorld fresh)).1.2,
       (Create unparsable handle Background [] (initWorld fresh)).2))
    by (vm_compute; reflexivity).
  destruct (Create_error_keeps_rc unparsable _ _ _ _ _ _ _ _ H) as (Hrc & Hpath).
  split; [now rewrite H|]. split; [exact Hrc|].
  now destruct (Hpath ltac:(discriminate)) as (_ & _ & Hdisk).
Defined.

Lemma Create_newline_in_name_witness :
  ContainsByte (name twoLines) LF = true /\
  (Create env twoLines Background [] (initWorld odd)).1.1.2 <> None.
Proof.
  split; [reflexivity|].
  now destruct (Create_newline_in_name env twoLines Background [] (initWorld odd)
                  eq_refl) as (Herr & _).
Defined.

Lemma Create_slash_in_name_witness :
  ContainsByte (name slashed) "/"%char = true /\
  (Create env slashed Background [] (initWorld odd)).1.1.2 <> None.
Proof.
  split; [reflexivity|].
  now destruct (Create_slash_in_name env slashed Background [] (initWorld odd)
                  eq_refl) as (Herr & _).
Defined.

Lemma Create_fresh_success_witness :
  (Create env handle Background [] (initWorld fresh)).1.1
    = ("/tmp/kind-cluser-x-kubecfg100", None) /\
  KubernetesRestConfig (Create env handle Background [] (initWorld fresh)).1.2
    = Some "apiVersion: v1".
Proof.
  assert (H : Create env handle Background [] (initWorld fresh)
    = (("/tmp/kind-cluser-x-kubecfg100", None),
       (Create env handle Background [] (initWorld fresh)).1.2,
       (Create env handle Background [] (initWorld fresh)).2))
    by (vm_compute; reflexivity).
  split; [now rewrite H|].
  edestruct (Create_fresh_success env handle Background [] (initWorld fresh))
    as (_ & _ & _ & _ & Hconf); [reflexivity|reflexivity|exact H|].
  apply (f_equal fst) in Hconf. cbn [fst] in Hconf. rewrite <- Hconf.
  vm_compute. reflexivity.
Defined.

Lemma CreateWithConfig_listed_witness :
  CreateWithConfig env withImage Background "cluster.yaml" (initWorld running)
    = Create env withImage Background [] (initWorld running).
Proof.
  edestruct (CreateWithConfig_listed env withImage Background "cluster.yaml"
               (initWorld running)) as (_ & H); [reflexivity..|].
  exact H.
Defined.

Lemma CreateWithConfig_command_witness :
  exists rest,
    added (initWorld fresh)
          (CreateWithConfig env withImage Background "cluster.yaml" (initWorld fresh)).2
    = [EvFindOrInstall "kind" "kind" "sigs.k8s.io/kind" "v0.17.0";
       EvFetchCommandOutput "kind get clusters";
       EvRunCommand
         "kind create cluster --name x --config cluster.yaml --image kindest/node:v1.25.3"]
      ++ rest.
Proof.
  edestruct (CreateWithConfig_command env withImage Background "cluster.yaml"
               (initWorld fresh)) as (rest & H);
    [reflexivity|reflexivity|discriminate|discriminate|].
  exists rest. exact H.
Defined.

End MoreRuns.
